(** * openusd-mcp: the scene tools of [openusd_mcp/tools.py]

    A shallow embedding of the tool functions (inspect_scene,
    get_materials, get_transforms, list_variants, set_variant,
    export_mesh, scene_stats) and the properties of their results.

    What the pxr (OpenUSD) bindings answer for a prim is data of the model:
    a [Prim] records the answers of GetPath, GetTypeName, IsA, GetChildren,
    GetVariantSets and of the mesh, shader and transform queries.  The
    float arithmetic of [Gf.Vec3f] is an interface ([GfFloat]), and so is
    what the operating system decides about a path ([Os]); integers,
    bytes, strings, dicts, lists and the control flow are modelled as the
    Python code has them. *)

From Stdlib Require Import ZArith List String Ascii Lia.
From Stdlib Require Floats.SpecFloat.
From stdpp Require Import gmap strings list pretty.

Local Open Scope Z_scope.

(** ** Python values *)

(** Exceptions the tool functions let escape. *)
Inductive exn :=
| FileNotFoundError (msg : string)
| ValueError (msg : string)
| IndexError
| StructError
| OSError.

(** A call either returns a value or raises. *)
Inductive outcome (A : Type) :=
| Returns (a : A)
| Raises (e : exn).
Arguments Returns {A} a.
Arguments Raises {A} e.

#[global] Instance outcome_ret : MRet outcome := fun A a => Returns a.
#[global] Instance outcome_bind : MBind outcome := fun A B k m =>
  match m with
  | Returns a => k a
  | Raises e => Raises e
  end.

(** [seq[i]] on a Python sequence: negative indices count from the end,
    anything outside raises IndexError. *)
Definition py_getitem {A} (l : list A) (i : Z) : outcome A :=
  let n := Z.of_nat (length l) in
  let j := if i <? 0 then i + n else i in
  if (j <? 0) || (n <=? j) then Raises IndexError
  else match l !! Z.to_nat j with
       | Some a => Returns a
       | None => Raises IndexError
       end.

(** [range(lo, hi)]. *)
Definition py_range (lo hi : Z) : list Z := seqZ lo (hi - lo).

(** [sep.join(parts)]. *)
Fixpoint join (sep : string) (parts : list string) : string :=
  match parts with
  | [] => ""
  | [s] => s
  | s :: rest => s +:+ sep +:+ join sep rest
  end.

(** Bytes are integers in [0, 256). [le_bytes n x] is the [n]-byte
    little-endian layout of [x], as struct.pack lays out ["<I"], ["<H"]
    and the bit pattern of ["<f"]. *)
Definition le_bytes (n : nat) (x : Z) : list Z :=
  (fun i : nat => (x / 256 ^ Z.of_nat i) mod 256) <$> seq 0 n.

(** Reading a little-endian field back. *)
Fixpoint le_value (bs : list Z) : Z :=
  match bs with
  | [] => 0
  | b :: rest => b + 256 * le_value rest
  end.

(** [struct.pack("<I", n)]: raises struct.error outside [0, 2^32). *)
Definition pack_I (n : Z) : outcome (list Z) :=
  if (n <? 0) || (2 ^ 32 <=? n) then Raises StructError
  else Returns (le_bytes 4 n).

(** [struct.pack("<H", n)]. *)
Definition pack_H (n : Z) : outcome (list Z) :=
  if (n <? 0) || (2 ^ 16 <=? n) then Raises StructError
  else Returns (le_bytes 2 n).

(** The bytes of a text file written from a [str]. *)
Definition encode (s : string) : list Z :=
  (fun a : ascii => Z.of_N (N_of_ascii a)) <$> list_ascii_of_string s.

(** ** The operating system

    What the file calls of the tools depend on and the storage does not
    hold. [realpath] gives the file a path names: the storage is keyed by
    files, and two spellings of one file have one [realpath].
    [can_open_w] tells whether [open(path, "w")] and [open(path, "wb")]
    succeed (they raise OSError for the empty path, a directory, a missing
    parent directory or a refused access). [text_bytes] gives the bytes a
    text-mode write of a [str] stores, after the newline translation and
    in the encoding of the platform, or the exception of the encoding. *)
Class Os := {
  realpath : string -> string;
  can_open_w : string -> bool;
  text_bytes : string -> outcome (list Z)
}.

(** ** The vector interface of pxr.Gf

    [F] is the float type. The operations are the ones export_mesh calls
    on [Gf.Vec3f] values; [f32_bits] is the IEEE-754 binary32 pattern that
    [struct.pack("<f", x)] lays out, [f_str] is [str(x)]. *)
Record Vec3f (F : Type) := mkVec3f { vx : F; vy : F; vz : F }.
Arguments mkVec3f {F} vx vy vz.
Arguments vx {F} v.
Arguments vy {F} v.
Arguments vz {F} v.

Class GfFloat (F : Type) := {
  f_zero : F;
  f_gt_zero : F -> bool;
  f32_bits : F -> Z;
  f_str : F -> string;
  vec_sub : Vec3f F -> Vec3f F -> Vec3f F;
  vec_cross : Vec3f F -> Vec3f F -> Vec3f F;
  GetLength : Vec3f F -> F;
  GetNormalized : Vec3f F -> Vec3f F
}.

(** Payloads: the dicts the tools return, keys in insertion order. *)
#[warnings="-register-all"] Inductive json (F : Type) :=
| JNone
| JInt (n : Z)
| JFloat (x : F)
| JStr (s : string)
| JList (l : list (json F))
| JDict (kvs : list (string * json F)).
Arguments JNone {F}.
Arguments JInt {F} n.
Arguments JFloat {F} x.
Arguments JStr {F} s.
Arguments JList {F} l.
Arguments JDict {F} kvs.

(** [d[k] = v] on a dict under construction. *)
Fixpoint dict_set {F} (kvs : list (string * json F)) (k : string) (v : json F)
  : list (string * json F) :=
  match kvs with
  | [] => [(k, v)]
  | (k', v') :: rest =>
      if String.eqb k' k then (k', v) :: rest
      else (k', v') :: dict_set rest k v
  end.

(** [d.get(k)]. *)
Fixpoint dict_get {F} (kvs : list (string * json F)) (k : string)
  : option (json F) :=
  match kvs with
  | [] => None
  | (k', v) :: rest => if String.eqb k' k then Some v else dict_get rest k
  end.

Definition field {F} (j : json F) (k : string) : option (json F) :=
  match j with
  | JDict kvs => dict_get kvs k
  | _ => None
  end.

Definition is_error {F} (j : json F) : bool :=
  match field j "error" with
  | Some _ => true
  | None => false
  end.

(** ** The document model *)

(** A variant set as the bindings report it: GetVariantNames and
    GetVariantSelection (the empty string when nothing is selected). *)
Record VariantSet := mkVariantSet {
  vset_name : string;
  vset_variants : list string;
  vset_selection : string
}.

(** A shader input: GetBaseName, and [str(inp.Get())] when the value is
    not None. *)
Record ShaderInput := mkShaderInput {
  inp_base_name : string;
  inp_value : option string
}.

(** A connected source of a material's surface output: the path of the
    shader prim and the inputs of the shader. *)
Record ShaderSource := mkShaderSource {
  src_prim_path : string;
  src_inputs : list ShaderInput
}.

(** A prim, by what the bindings answer for it. The mesh attributes are
    [None] when [Get()] returns None; the two transforms are the [str] of
    the matrices pxr computes at the default time code. *)
#[warnings="-register-all"] Inductive Prim (F : Type) := mkPrim {
  prim_path : string;
  prim_type : string;
  is_a_mesh : bool;
  is_a_material : bool;
  is_a_xformable : bool;
  variant_sets : list VariantSet;
  mesh_points : option (list (Vec3f F));
  mesh_face_vertex_counts : option (list Z);
  mesh_face_vertex_indices : option (list Z);
  surface_sources : list ShaderSource;
  local_transform : string;
  world_transform : string;
  children : list (Prim F)
}.
Arguments mkPrim {F}.
Arguments prim_path {F} p.
Arguments prim_type {F} p.
Arguments is_a_mesh {F} p.
Arguments is_a_material {F} p.
Arguments is_a_xformable {F} p.
Arguments variant_sets {F} p.
Arguments mesh_points {F} p.
Arguments mesh_face_vertex_counts {F} p.
Arguments mesh_face_vertex_indices {F} p.
Arguments surface_sources {F} p.
Arguments local_transform {F} p.
Arguments world_transform {F} p.
Arguments children {F} p.

(** A stage: the pseudo-root (path "/", not a prim of the scene itself)
    with the scene below it, and the stage metadata. [bounds_mm] holds the
    three rounded extents scene_stats reports; they come out of pxr's
    BBoxCache and float arithmetic. *)
Record Stage (F : Type) := mkStage {
  pseudo_root : Prim F;
  up_axis : string;
  meters_per_unit : F;
  bounds_mm : Vec3f F
}.
Arguments mkStage {F}.
Arguments pseudo_root {F} s.
Arguments up_axis {F} s.
Arguments meters_per_unit {F} s.
Arguments bounds_mm {F} s.

(** What a file of the storage is: a USD layer, a regular file of bytes
    that are no layer, or a node that is no regular file (a directory, a
    device, a pipe), which keeps nothing of what is written to it and for
    which the system reports [size]. *)
Inductive File (F : Type) :=
| UsdFile (stage : Stage F)
| Blob (bytes : list Z)
| Special (size : Z).
Arguments UsdFile {F} stage.
Arguments Blob {F} bytes.
Arguments Special {F} size.

(** The prim and everything below it, depth first, parents before
    children. *)
Fixpoint prim_range {F} (p : Prim F) : list (Prim F) :=
  p :: flat_map prim_range (children p).

(** [stage.Traverse()]: the prims below the pseudo-root, depth first. The
    pseudo-root itself is not visited. *)
Definition Traverse {F} (stage : Stage F) : list (Prim F) :=
  flat_map prim_range (children (pseudo_root stage)).

(** [stage.GetPrimAtPath(p)]: [None] stands for the invalid prim. *)
Definition GetPrimAtPath {F} (stage : Stage F) (p : string) : option (Prim F) :=
  List.find (fun q => String.eqb (prim_path q) p) (prim_range (pseudo_root stage)).

Definition GetVariantSet {F} (prim : Prim F) (name : string) : option VariantSet :=
  List.find (fun vs => String.eqb (vset_name vs) name) (variant_sets prim).

Definition HasVariantSet {F} (prim : Prim F) (name : string) : bool :=
  match GetVariantSet prim name with
  | Some _ => true
  | None => false
  end.

(** [vset.SetVariantSelection(variant)]: the selection of the set, on the
    stage held in memory. *)
Definition select_in (name variant : string) (vs : VariantSet) : VariantSet :=
  if String.eqb (vset_name vs) name
  then mkVariantSet (vset_name vs) (vset_variants vs) variant
  else vs.

Fixpoint select_prim {F} (path name variant : string) (p : Prim F) : Prim F :=
  mkPrim (prim_path p) (prim_type p) (is_a_mesh p) (is_a_material p)
    (is_a_xformable p)
    (if String.eqb (prim_path p) path
     then map (select_in name variant) (variant_sets p)
     else variant_sets p)
    (mesh_points p) (mesh_face_vertex_counts p) (mesh_face_vertex_indices p)
    (surface_sources p) (local_transform p) (world_transform p)
    (map (select_prim path name variant) (children p)).

Definition SetVariantSelection {F} (stage : Stage F) (path name variant : string)
  : Stage F :=
  mkStage (select_prim path name variant (pseudo_root stage))
    (up_axis stage) (meters_per_unit stage) (bounds_mm stage).

(** ** The tools *)

Section Tools.
Context {F : Type} `{GfFloat F} `{Os}.

(** Storage: what each file holds. *)
Abbreviation Storage := (gmap string (File F)).

(** A payload [{"error": msg}]. *)
Definition error_payload (msg : string) : json F := JDict [("error", JStr msg)].

(** Truthiness of an attribute value: None and the empty array are false. *)
Definition truthy {A} (v : option (list A)) : bool :=
  match v with
  | Some (_ :: _) => true
  | _ => false
  end.

(** [_open_stage(path)]. *)
Definition _open_stage (fs : Storage) (path : string) : outcome (Stage F) :=
  match fs !! realpath path with
  | None => Raises (FileNotFoundError ("File not found: " +:+ path))
  | Some (UsdFile stage) => Returns stage
  | Some _ => Raises (ValueError ("Failed to open USD stage: " +:+ path))
  end.

(** *** inspect_scene *)

Fixpoint _walk (prim : Prim F) : json F :=
  let children := map _walk (children prim) in
  let info := [("path", JStr (prim_path prim)); ("type", JStr (prim_type prim))] in
  let info :=
    if String.eqb (prim_type prim) "Mesh" then
      match mesh_face_vertex_counts prim with
      | Some (c :: cs) => dict_set info "faces" (JInt (Z.of_nat (length (c :: cs))))
      | _ => info
      end
    else info in
  let info :=
    match children with
    | [] => info
    | _ :: _ => dict_set info "children" (JList children)
    end in
  JDict info.

Definition inspect_scene (fs : Storage) (path : string) : outcome (json F) :=
  stage ← _open_stage fs path;
  let root := pseudo_root stage in
  mret (JDict [("scene", JList (map _walk (children root)));
               ("up_axis", JStr (up_axis stage));
               ("meters_per_unit", JFloat (meters_per_unit stage))]).

(** *** get_materials *)

(** The inner loop over [shader.GetInputs()]. *)
Definition shader_params (inputs : list ShaderInput) : list (string * json F) :=
  fold_left (fun params inp =>
               match inp_value inp with
               | Some val => dict_set params (inp_base_name inp) (JStr val)
               | None => params
               end) inputs [].

(** The loop over the connected sources of the surface output. *)
Definition material_entry (prim : Prim F) : json F :=
  JDict (fold_left (fun shader_info source =>
                      dict_set
                        (dict_set shader_info "shader" (JStr (src_prim_path source)))
                        "params" (JDict (shader_params (src_inputs source))))
                   (surface_sources prim)
                   [("path", JStr (prim_path prim))]).

Definition get_materials (fs : Storage) (path : string) : outcome (json F) :=
  stage ← _open_stage fs path;
  let materials :=
    fold_left (fun materials prim =>
                 if is_a_material prim then materials ++ [material_entry prim]
                 else materials) (Traverse stage) [] in
  mret (JDict [("materials", JList materials)]).

(** *** get_transforms *)

Definition transform_entry (prim : Prim F) : json F :=
  JDict [("path", JStr (prim_path prim));
         ("local_transform", JStr (local_transform prim));
         ("world_transform", JStr (world_transform prim))].

(** [prim_path] is [None] or a string; the empty string is falsy as well. *)
Definition get_transforms (fs : Storage) (path : string) (prim_path : option string)
  : outcome (json F) :=
  stage ← _open_stage fs path;
  let prims : list (option (Prim F)) :=
    match prim_path with
    | Some (String a s) => [GetPrimAtPath stage (String a s)]
    | _ => map Some (filter (fun p => is_a_xformable p = true) (Traverse stage))
    end in
  let results :=
    fold_left (fun results prim =>
                 match prim with
                 | None => results
                 | Some prim => results ++ [transform_entry prim]
                 end) prims [] in
  mret (JDict [("transforms", JList results)]).

(** *** list_variants *)

(** GetVariantSelection gives the empty string when nothing is selected. *)
Definition variant_set_entry (vset : VariantSet) : json F :=
  JDict [("name", JStr (vset_name vset));
         ("options", JList (map JStr (vset_variants vset)));
         ("selected", JStr (vset_selection vset))].

Definition list_variants (fs : Storage) (path : string) : outcome (json F) :=
  stage ← _open_stage fs path;
  let results :=
    fold_left (fun results prim =>
                 match variant_sets prim with
                 | [] => results
                 | names =>
                     results ++
                       [JDict [("path", JStr (prim_path prim));
                               ("variant_sets", JList (map variant_set_entry names))]]
                 end) (Traverse stage) [] in
  mret (JDict [("variants", JList results)]).

(** *** set_variant *)

(** [repr] of a variant name and of the list GetVariantNames returns, as
    the f-string prints it. USD variant names are identifiers (letters,
    digits, [_], [-], [.], [|]), so [repr] only adds the quotes. *)
Definition py_repr_str (s : string) : string := "'" +:+ s +:+ "'".

Definition py_repr_list (names : list string) : string :=
  "[" +:+ join ", " (map py_repr_str names) +:+ "]".

(** The stage is opened, checked and changed in memory; the function
    returns without saving it, so the storage it hands back is the one it
    was given. *)
Definition set_variant (fs : Storage) (path prim_path variant_set variant : string)
  : outcome (json F) * Storage :=
  match _open_stage fs path with
  | Raises e => (Raises e, fs)
  | Returns stage =>
      match GetPrimAtPath stage prim_path with
      | None => (Returns (error_payload ("Prim not found: " +:+ prim_path)), fs)
      | Some prim =>
          match GetVariantSet prim variant_set with
          | None =>
              (Returns (error_payload ("Variant set not found: " +:+ variant_set)), fs)
          | Some vset =>
              if negb (bool_decide (variant ∈ vset_variants vset)) then
                (Returns (error_payload
                            ("Variant not found: " +:+ variant +:+ ". Available: "
                               +:+ py_repr_list (vset_variants vset))), fs)
              else
                let stage' := SetVariantSelection stage prim_path variant_set variant in
                (Returns (JDict [("path", JStr prim_path);
                                 ("variant_set", JStr variant_set);
                                 ("selected", JStr variant);
                                 ("status", JStr "ok")]), fs)
          end
      end
  end.

(** *** export_mesh *)

(** The triangles of one face: [for i in range(1, count - 1)]. *)
Definition face_triangles (face_vertex_indices : list Z) (idx count : Z)
  : outcome (list (Z * Z * Z)) :=
  mapM (fun i =>
          v0 ← py_getitem face_vertex_indices idx;
          v1 ← py_getitem face_vertex_indices (idx + i);
          v2 ← py_getitem face_vertex_indices (idx + i + 1);
          mret (v0, v1, v2))
       (py_range 1 (count - 1)).

(** The loop over [face_vertex_counts], from offset [idx]. *)
Fixpoint triangulate_from (face_vertex_indices : list Z) (idx : Z)
    (face_vertex_counts : list Z) : outcome (list (Z * Z * Z)) :=
  match face_vertex_counts with
  | [] => mret []
  | count :: rest =>
      tris ← face_triangles face_vertex_indices idx count;
      more ← triangulate_from face_vertex_indices (idx + count) rest;
      mret (tris ++ more)
  end.

Definition triangulate (face_vertex_counts face_vertex_indices : list Z)
  : outcome (list (Z * Z * Z)) :=
  triangulate_from face_vertex_indices 0 face_vertex_counts.

(** [struct.pack("<3f", *v)]. *)
Definition pack_3f (v : Vec3f F) : list Z :=
  le_bytes 4 (f32_bits (vx v)) ++ le_bytes 4 (f32_bits (vy v))
    ++ le_bytes 4 (f32_bits (vz v)).

(** The normal written for a triangle. *)
Definition triangle_normal (p0 p1 p2 : Vec3f F) : Vec3f F :=
  let normal := vec_cross (vec_sub p1 p0) (vec_sub p2 p0) in
  if f_gt_zero (GetLength normal) then GetNormalized normal else normal.

(** The five writes of one triangle; the point lookups precede them. *)
Definition stl_record (points : list (Vec3f F)) (tri : Z * Z * Z)
  : outcome (list Z) :=
  let '(t0, t1, t2) := tri in
  p0 ← py_getitem points t0;
  p1 ← py_getitem points t1;
  p2 ← py_getitem points t2;
  let normal := triangle_normal p0 p1 p2 in
  pad ← pack_H 0;
  mret (pack_3f normal ++ pack_3f p0 ++ pack_3f p1 ++ pack_3f p2 ++ pad).

(** The loop over the triangles, with the bytes written so far: when a
    lookup raises, what was written stays in the file. *)
Fixpoint write_records (points : list (Vec3f F)) (triangles : list (Z * Z * Z))
    (written : list Z) : list Z * option exn :=
  match triangles with
  | [] => (written, None)
  | tri :: rest =>
      match stl_record points tri with
      | Raises e => (written, Some e)
      | Returns record => write_records points rest (written ++ record)
      end
  end.

(** The [else] branch: the file is opened for writing, then filled. *)
Definition write_stl (points : list (Vec3f F)) (triangles : list (Z * Z * Z))
  : list Z * option exn :=
  let header := replicate 80 0 in
  match pack_I (Z.of_nat (length triangles)) with
  | Raises e => (header, Some e)
  | Returns count => write_records points triangles (header ++ count)
  end.

(** The text of the [obj] branch. *)
Definition obj_text (prim_path : string) (points : list (Vec3f F))
    (triangles : list (Z * Z * Z)) : string :=
  let lines := ["# Exported from " +:+ prim_path] in
  let lines :=
    fold_left (fun lines p =>
                 lines ++ ["v " +:+ f_str (vx p) +:+ " " +:+ f_str (vy p)
                             +:+ " " +:+ f_str (vz p)]) points lines in
  let lines :=
    fold_left (fun lines (tri : Z * Z * Z) =>
                 let '(t0, t1, t2) := tri in
                 lines ++ ["f " +:+ pretty (t0 + 1) +:+ " " +:+ pretty (t1 + 1)
                             +:+ " " +:+ pretty (t2 + 1)]) triangles lines in
  join (String "010" "") lines.

(** What a [with open(output, ...)] block that wrote [bytes] leaves: the
    file holds them, unless it is no regular file. *)
Definition write_file (fs : Storage) (output : string) (bytes : list Z) : Storage :=
  match fs !! realpath output with
  | Some (Special _) => fs
  | _ => <[realpath output := Blob bytes]> fs
  end.

(** [os.path.getsize(output)]. *)
Definition getsize (fs : Storage) (output : string) : Z :=
  match fs !! realpath output with
  | Some (Blob bytes) => Z.of_nat (length bytes)
  | Some (Special size) => size
  | _ => 0
  end.

Definition export_payload (fs : Storage) (output fmt : string)
    (triangles : list (Z * Z * Z)) : json F :=
  JDict [("output", JStr output);
         ("format", JStr fmt);
         ("triangles", JInt (Z.of_nat (length triangles)));
         ("size_bytes", JInt (getsize fs output));
         ("status", JStr "ok")].

Definition export_mesh (fs : Storage) (path prim_path output fmt : string)
  : outcome (json F) * Storage :=
  match _open_stage fs path with
  | Raises e => (Raises e, fs)
  | Returns stage =>
      match GetPrimAtPath stage prim_path with
      | None => (Returns (error_payload ("Not a valid mesh prim: " +:+ prim_path)), fs)
      | Some prim =>
          if negb (is_a_mesh prim) then
            (Returns (error_payload ("Not a valid mesh prim: " +:+ prim_path)), fs)
          else
            match mesh_points prim, mesh_face_vertex_counts prim,
                  mesh_face_vertex_indices prim with
            | Some (p :: ps), Some (c :: cs), Some (i :: ixs) =>
                let points := p :: ps in
                match triangulate (c :: cs) (i :: ixs) with
                | Raises e => (Raises e, fs)
                | Returns triangles =>
                    if String.eqb fmt "obj" then
                      let text := obj_text prim_path points triangles in
                      if can_open_w output then
                        match text_bytes text with
                        | Raises e => (Raises e, write_file fs output [])
                        | Returns bytes =>
                            let fs' := write_file fs output bytes in
                            (Returns (export_payload fs' output fmt triangles), fs')
                        end
                      else (Raises OSError, fs)
                    else
                      if can_open_w output then
                        let '(bytes, failure) := write_stl points triangles in
                        let fs' := write_file fs output bytes in
                        match failure with
                        | Some e => (Raises e, fs')
                        | None => (Returns (export_payload fs' output fmt triangles), fs')
                        end
                      else (Raises OSError, fs)
                end
            | _, _, _ => (Returns (error_payload "Mesh has no geometry data"), fs)
            end
      end
  end.

(** *** scene_stats *)

(** The four counters of the loop. *)
Record Counters := mkCounters {
  prim_count : Z;
  mesh_count : Z;
  material_count : Z;
  total_faces : Z
}.

Definition count_prim (c : Counters) (prim : Prim F) : Counters :=
  let c := mkCounters (prim_count c + 1) (mesh_count c) (material_count c)
             (total_faces c) in
  if String.eqb (prim_type prim) "Mesh" then
    let c := mkCounters (prim_count c) (mesh_count c + 1) (material_count c)
               (total_faces c) in
    match mesh_face_vertex_counts prim with
    | Some (f :: fc) =>
        mkCounters (prim_count c) (mesh_count c) (material_count c)
          (total_faces c + Z.of_nat (length (f :: fc)))
    | _ => c
    end
  else if String.eqb (prim_type prim) "Material" then
    mkCounters (prim_count c) (mesh_count c) (material_count c + 1) (total_faces c)
  else c.

Definition scene_counters (stage : Stage F) : Counters :=
  fold_left count_prim (Traverse stage) (mkCounters 0 0 0 0).

Definition scene_stats (fs : Storage) (path : string) : outcome (json F) :=
  stage ← _open_stage fs path;
  let c := scene_counters stage in
  mret (JDict [("prim_count", JInt (prim_count c));
               ("mesh_count", JInt (mesh_count c));
               ("material_count", JInt (material_count c));
               ("total_faces", JInt (total_faces c));
               ("up_axis", JStr (up_axis stage));
               ("meters_per_unit", JFloat (meters_per_unit stage));
               ("bounds_mm", JDict [("x", JFloat (vx (bounds_mm stage)));
                                    ("y", JFloat (vy (bounds_mm stage)));
                                    ("z", JFloat (vz (bounds_mm stage)))])]).

End Tools.

(** ** Scenes on the integer grid

    An instance of the vector interface for scenes whose coordinates are
    integers of magnitude below [2^24], which binary32 holds exactly:
    subtraction and the cross product are the exact ones, the length is
    the integer square root of the dot product, [f32_bits] is the binary32
    pattern of an integer. The example scenes below live on this grid. *)
Module Grid.

(** A flat directory: a path names itself, every path but the empty one
    opens for writing, text is written byte for byte. *)
#[global] Instance posix : Os := {|
  realpath := fun path => path;
  can_open_w := fun path => negb (String.eqb path "");
  text_bytes := fun text => Returns (encode text)
|}.

Definition bits (x : Z) : Z :=
  if x =? 0 then 0
  else
    let m := Z.abs x in
    let e := Z.log2 m in
    (if x <? 0 then 2 ^ 31 else 0) + (e + 127) * 2 ^ 23 + (m - 2 ^ e) * 2 ^ (23 - e).

Definition sub (a b : Vec3f Z) : Vec3f Z :=
  mkVec3f (vx a - vx b) (vy a - vy b) (vz a - vz b).

Definition cross (a b : Vec3f Z) : Vec3f Z :=
  mkVec3f (vy a * vz b - vz a * vy b)
          (vz a * vx b - vx a * vz b)
          (vx a * vy b - vy a * vx b).

Definition dot (a b : Vec3f Z) : Z := vx a * vx b + vy a * vy b + vz a * vz b.

Definition len (a : Vec3f Z) : Z := Z.sqrt (dot a a).

Definition normalized (a : Vec3f Z) : Vec3f Z :=
  let l := len a in
  if l =? 0 then a else mkVec3f (vx a ÷ l) (vy a ÷ l) (vz a ÷ l).

#[global] Instance grid_float : GfFloat Z := {|
  f_zero := 0;
  f_gt_zero := fun x => 0 <? x;
  f32_bits := bits;
  f_str := fun x => pretty x +:+ ".0";
  vec_sub := sub;
  vec_cross := cross;
  GetLength := len;
  GetNormalized := normalized
|}.

Definition leaf (path type : string) (mesh material xformable : bool)
    (vsets : list VariantSet) (sources : list ShaderSource)
    (kids : list (Prim Z)) : Prim Z :=
  mkPrim path type mesh material xformable vsets None None None sources
    "( (1, 0, 0, 0), (0, 1, 0, 0), (0, 0, 1, 0), (0, 0, 0, 1) )"
    "( (1, 0, 0, 0), (0, 1, 0, 0), (0, 0, 1, 0), (0, 0, 0, 1) )" kids.

Definition stage_of (tops : list (Prim Z)) : Stage Z :=
  mkStage (leaf "/" "" false false false [] [] tops) "Y" 1 (mkVec3f 0 0 0).

(** A product with a [size] variant set and nothing selected. *)
Definition product : Prim Z :=
  leaf "/Product" "Xform" false false true
    [mkVariantSet "size" ["small"; "medium"; "large"] ""] [] [].

Definition product_fs : gmap string (File Z) :=
  {[ "product.usda" := UsdFile (stage_of [product]) ]}.

(** A material whose surface output has no connected shader, next to one
    that has a shader. *)
Definition bare_material : Prim Z :=
  leaf "/Looks/Bare" "Material" false true false [] [] [].

Definition steel_shader : Prim Z :=
  leaf "/Looks/Steel/Shader" "Shader" false false false [] [] [].

Definition steel_material : Prim Z :=
  leaf "/Looks/Steel" "Material" false true false []
    [mkShaderSource "/Looks/Steel/Shader"
       [mkShaderInput "metallic" (Some "1.0");
        mkShaderInput "normal" None;
        mkShaderInput "roughness" (Some "0.3")]]
    [steel_shader].

Definition looks_fs : gmap string (File Z) :=
  {[ "looks.usda" :=
       UsdFile (stage_of [leaf "/Looks" "Scope" false false false [] []
                            [bare_material; steel_material]]) ]}.

(** The unit box: eight corners, six quads. *)
Definition box_points : list (Vec3f Z) :=
  [mkVec3f 0 0 0; mkVec3f 1 0 0; mkVec3f 1 1 0; mkVec3f 0 1 0;
   mkVec3f 0 0 1; mkVec3f 1 0 1; mkVec3f 1 1 1; mkVec3f 0 1 1].

Definition box_faces : list (list Z) :=
  [[0; 3; 2; 1]; [4; 5; 6; 7]; [0; 1; 5; 4];
   [1; 2; 6; 5]; [2; 3; 7; 6]; [3; 0; 4; 7]].

Definition box : Prim Z :=
  mkPrim "/World/Box" "Mesh" true false true [] (Some box_points)
    (Some (Z.of_nat <$> (length <$> box_faces))) (Some (concat box_faces)) []
    "" "" [].

(** A mesh without points. *)
Definition hollow : Prim Z :=
  mkPrim "/World/Hollow" "Mesh" true false true [] None (Some [3]) (Some [0; 1; 2]) []
    "" "" [].

(** A triangle whose three corners lie on one line. *)
Definition sliver : Prim Z :=
  mkPrim "/World/Sliver" "Mesh" true false true []
    (Some [mkVec3f 0 0 0; mkVec3f 1 1 1; mkVec3f 2 2 2]) (Some [3]) (Some [0; 1; 2]) []
    "" "" [].

Definition world : Prim Z :=
  leaf "/World" "Xform" false false true [] [] [box; hollow; sliver].

Definition box_fs : gmap string (File Z) :=
  {[ "box.usda" := UsdFile (stage_of [world]) ]}.

(** The box exported in the binary format, and the payload of the call. *)
Definition box_export : outcome (json Z) * gmap string (File Z) :=
  export_mesh box_fs "box.usda" "/World/Box" "out.stl" "stl".

Definition payload_of (run : outcome (json Z) * gmap string (File Z)) : json Z :=
  match run.1 with
  | Returns payload => payload
  | Raises _ => JNone
  end.

(** The one record of the sliver. *)
Definition sliver_record : list Z :=
  match stl_record [mkVec3f 0 0 0; mkVec3f 1 1 1; mkVec3f 2 2 2] (0, 1, 2) with
  | Returns record => record
  | Raises _ => []
  end.

End Grid.

(** ** Vocabulary of the properties *)

(** The fan of a face [v0, v1, ..., v(n-1)], as the specification words
    it: the triangles (v0, v1, v2), (v0, v2, v3), ..., (v0, v(n-2), v(n-1)). *)
Definition fan (face : list Z) : list (Z * Z * Z) :=
  match face with
  | [] => []
  | v0 :: rest => (fun ab : Z * Z => (v0, ab.1, ab.2)) <$> zip rest (tail rest)
  end.

(** [sum(count - 2 for count in face_vertex_counts)]. *)
Definition fan_total (face_vertex_counts : list Z) : Z :=
  foldr (fun count acc => (count - 2) + acc) 0 face_vertex_counts.

(** The nodes of a nested hierarchy payload: a dict is a node, and so is
    every node below its [children]. *)
Fixpoint node_count {F} (j : json F) : nat :=
  match j with
  | JDict kvs =>
      S ((fix fields (kvs : list (string * json F)) : nat :=
            match kvs with
            | [] => O
            | (k, v) :: rest =>
                ((if String.eqb k "children" then
                    match v with
                    | JList l =>
                        (fix each (l : list (json F)) : nat :=
                           match l with
                           | [] => O
                           | x :: l' => (node_count x + each l')%nat
                           end) l
                    | _ => O
                    end
                  else O) + fields rest)%nat
            end) kvs)
  | _ => O
  end.

(** The nodes of a list of hierarchy payloads. *)
Definition list_nodes {F} (l : list (json F)) : nat :=
  foldr (fun j acc => (node_count j + acc)%nat) O l.

(** The nodes a field of a dict contributes: those below [children]. *)
Definition children_nodes {F} (kv : string * json F) : nat :=
  if String.eqb kv.1 "children" then
    match kv.2 with
    | JList l => list_nodes l
    | _ => O
    end
  else O.

(** The nodes inspect_scene reports, over the whole [scene] list. *)
Definition scene_node_count {F} (payload : json F) : nat :=
  match field payload "scene" with
  | Some (JList l) => list_nodes l
  | _ => O
  end.

(** The 50-byte record of a triangle of the binary format, as the
    specification words it: the normal (the normalized cross product of
    p1 - p0 and p2 - p0 when its length is greater than zero, the cross
    product itself otherwise), then the three corners p0, p1, p2 looked up
    in [points], each as three little-endian floats, then two zero bytes. *)
Definition stl_record_of {F} `{GfFloat F} (points : list (Vec3f F))
    (tri : Z * Z * Z) (record : list Z) : Prop :=
  exists p0 p1 p2 normal : Vec3f F,
    py_getitem points tri.1.1 = Returns p0 /\
    py_getitem points tri.1.2 = Returns p1 /\
    py_getitem points tri.2 = Returns p2 /\
    normal = (let c := vec_cross (vec_sub p1 p0) (vec_sub p2 p0) in
              if f_gt_zero (GetLength c) then GetNormalized c else c) /\
    record = pack_3f normal ++ (pack_3f p0 ++ pack_3f p1 ++ pack_3f p2) ++ [0; 0].

(** The bytes of a binary file for these triangles: eighty zero bytes,
    the number of triangles as four little-endian bytes, the records. *)
Definition stl_file (triangles : list (Z * Z * Z)) (records : list (list Z))
  : list Z :=
  replicate 80 0 ++ le_bytes 4 (Z.of_nat (length triangles)) ++ concat records.

(** The output is no node that drops what is written to it. *)
Definition keeps_bytes {F} `{Os} (fs : gmap string (File F)) (output : string) : Prop :=
  forall size, fs !! realpath output <> Some (Special size).

(** [part] occurs in [whole]. *)
Definition occurs_in (part whole : string) : Prop :=
  exists pre post, whole = pre +:+ part +:+ post.

(** ** get_prim

    What the bindings answer for the attributes and the material binding
    of a prim: GetAttributes with, per attribute, GetName and [str] of the
    value ([None] when [Get()] returns None), IsA(UsdGeom.Gprim), and the
    path of the material ComputeBoundMaterial finds ([None] when the
    material is invalid). *)
Record PrimAnswers (F : Type) := mkPrimAnswers {
  GetAttributes : Prim F -> list (string * option string);
  is_a_gprim : Prim F -> bool;
  ComputeBoundMaterial : Prim F -> option string
}.
Arguments mkPrimAnswers {F}.
Arguments GetAttributes {F} p prim.
Arguments is_a_gprim {F} p prim.
Arguments ComputeBoundMaterial {F} p prim.

Section GetPrim.
Context {F : Type} `{Os} (pxr : PrimAnswers F).

(** The loop over [prim.GetAttributes()]. *)
Definition prim_attrs (attributes : list (string * option string))
  : list (string * json F) :=
  fold_left (fun attrs attr =>
               match attr.2 with
               | Some val => dict_set attrs attr.1 (JStr val)
               | None => attrs
               end) attributes [].

Definition get_prim (fs : gmap string (File F)) (path prim_path : string)
  : outcome (json F) :=
  stage ← _open_stage fs path;
  match GetPrimAtPath stage prim_path with
  | None => mret (error_payload ("Prim not found: " +:+ prim_path))
  | Some prim =>
      let attrs := prim_attrs (GetAttributes pxr prim) in
      let result := [("path", JStr prim_path);
                     ("type", JStr (prim_type prim));
                     ("attributes", JDict attrs)] in
      let result :=
        if is_a_gprim pxr prim then
          match ComputeBoundMaterial pxr prim with
          | Some mat => dict_set result "material" (JStr mat)
          | None => result
          end
        else result in
      mret (JDict result)
  end.

End GetPrim.

(** ** More vocabulary *)

(** The paths of a nested hierarchy payload, a node before the nodes below
    its [children]. *)
Fixpoint walk_paths {F} (j : json F) : list string :=
  match j with
  | JDict kvs =>
      (fix fields (kvs : list (string * json F)) : list string :=
         match kvs with
         | [] => []
         | (k, v) :: rest =>
             (if String.eqb k "path" then
                match v with
                | JStr s => [s]
                | _ => []
                end
              else if String.eqb k "children" then
                match v with
                | JList l =>
                    (fix each (l : list (json F)) : list string :=
                       match l with
                       | [] => []
                       | x :: l' => walk_paths x ++ each l'
                       end) l
                | _ => []
                end
              else []) ++ fields rest
         end) kvs
  | _ => []
  end.

(** The sum of the [faces] fields of a nested hierarchy payload. *)
Fixpoint faces_sum {F} (j : json F) : Z :=
  match j with
  | JDict kvs =>
      (fix fields (kvs : list (string * json F)) : Z :=
         match kvs with
         | [] => 0
         | (k, v) :: rest =>
             (if String.eqb k "faces" then
                match v with
                | JInt n => n
                | _ => 0
                end
              else if String.eqb k "children" then
                match v with
                | JList l =>
                    (fix each (l : list (json F)) : Z :=
                       match l with
                       | [] => 0
                       | x :: l' => faces_sum x + each l'
                       end) l
                | _ => 0
                end
              else 0) + fields rest
         end) kvs
  | _ => 0
  end.

(** The faces scene_stats adds for a prim. *)
Definition prim_faces {F} (prim : Prim F) : Z :=
  if String.eqb (prim_type prim) "Mesh" then
    match mesh_face_vertex_counts prim with
    | Some fc => Z.of_nat (length fc)
    | None => 0
    end
  else 0.

(** [sum(max(0, count - 2) for count in face_vertex_counts)]. *)
Definition triangle_total (face_vertex_counts : list Z) : Z :=
  foldr (fun count acc => Z.max 0 (count - 2) + acc) 0 face_vertex_counts.

(** [sum(face_vertex_counts)]. *)
Definition sum_counts (face_vertex_counts : list Z) : Z :=
  foldr Z.add 0 face_vertex_counts.

(** An index [points[i]] accepts. *)
Definition index_ok {A} (l : list A) (i : Z) : Prop :=
  - Z.of_nat (length l) <= i < Z.of_nat (length l).

(** The value the loop of get_prim or of a shader leaves under [name]: the
    last value set under that name. *)
Definition last_set (name : string) (entries : list (string * option string))
  : option string :=
  fold_left (fun found entry =>
               if String.eqb entry.1 name then
                 match entry.2 with
                 | Some val => Some val
                 | None => found
                 end
               else found) entries None.

(** The lines of the text export. *)
Definition obj_vertex_line {F} `{GfFloat F} (p : Vec3f F) : string :=
  "v " +:+ f_str (vx p) +:+ " " +:+ f_str (vy p) +:+ " " +:+ f_str (vz p).

Definition obj_face_line (tri : Z * Z * Z) : string :=
  "f " +:+ pretty (tri.1.1 + 1) +:+ " " +:+ pretty (tri.1.2 + 1)
    +:+ " " +:+ pretty (tri.2 + 1).

#[global] Instance index_ok_dec {A} (l : list A) (i : Z) : Decision (index_ok l i).
Proof. unfold index_ok. apply _. Defined.

(** The three corners of a triangle are indices [points] accepts. *)
Definition corners_ok {A} (points : list A) (tri : Z * Z * Z) : Prop :=
  index_ok points tri.1.1 /\ index_ok points tri.1.2 /\ index_ok points tri.2.

(** [path] holds a stage in which [prim_path] is a Mesh prim with these
    non-empty points, face counts and face indices: the calls of
    export_mesh that get past both error returns. *)
Definition mesh_at {F} `{Os} (fs : gmap string (File F)) (path prim_path : string)
    (points : list (Vec3f F)) (counts indices : list Z) : Prop :=
  exists stage prim,
    _open_stage fs path = Returns stage /\
    GetPrimAtPath stage prim_path = Some prim /\
    is_a_mesh prim = true /\
    mesh_points prim = Some points /\
    mesh_face_vertex_counts prim = Some counts /\
    mesh_face_vertex_indices prim = Some indices /\
    points <> [] /\ counts <> [] /\ indices <> [].

(** The paths and the faces of a list of hierarchy payloads, and what one
    field of a dict contributes to them. *)
Definition list_paths {F} (l : list (json F)) : list string :=
  foldr (fun j acc => walk_paths j ++ acc) [] l.

Definition field_paths {F} (kv : string * json F) : list string :=
  if String.eqb kv.1 "path" then
    match kv.2 with
    | JStr s => [s]
    | _ => []
    end
  else if String.eqb kv.1 "children" then
    match kv.2 with
    | JList l => list_paths l
    | _ => []
    end
  else [].

Definition list_faces {F} (l : list (json F)) : Z :=
  foldr (fun j acc => faces_sum j + acc) 0 l.

Definition field_faces {F} (kv : string * json F) : Z :=
  if String.eqb kv.1 "faces" then
    match kv.2 with
    | JInt n => n
    | _ => 0
    end
  else if String.eqb kv.1 "children" then
    match kv.2 with
    | JList l => list_faces l
    | _ => 0
    end
  else 0.

(** The paths and the faces inspect_scene reports, over its [scene]. *)
Definition scene_paths {F} (payload : json F) : list string :=
  match field payload "scene" with
  | Some (JList l) => list_paths l
  | _ => []
  end.

Definition scene_faces {F} (payload : json F) : Z :=
  match field payload "scene" with
  | Some (JList l) => list_faces l
  | _ => 0
  end.

(** The prims of a type name, and the faces of a list of prims. *)
Definition of_type {F} (type : string) (prims : list (Prim F)) : list (Prim F) :=
  List.filter (fun p => String.eqb (prim_type p) type) prims.

Definition faces_of {F} (prims : list (Prim F)) : Z :=
  foldr (fun p acc => prim_faces p + acc) 0 prims.

(** The entry list_variants makes for a prim that has variant sets. *)
Definition has_variant_sets {F} (prim : Prim F) : bool :=
  match variant_sets prim with
  | [] => false
  | _ :: _ => true
  end.

Definition variants_entry {F} (prim : Prim F) : json F :=
  JDict [("path", JStr (prim_path prim));
         ("variant_sets", JList (map variant_set_entry (variant_sets prim)))].

(** The inputs of a shader as name and value. *)
Definition input_entries (inputs : list ShaderInput) : list (string * option string) :=
  map (fun inp => (inp_base_name inp, inp_value inp)) inputs.

(** ** More scenes on the grid *)
Module Scenes.

Definition corner_points : list (Vec3f Z) :=
  [mkVec3f 0 0 0; mkVec3f 1 0 0; mkVec3f 0 1 0].

(** Two triangles, the second with a corner index [points] does not have. *)
Definition broken : Prim Z :=
  mkPrim "/World/Broken" "Mesh" true false true [] (Some corner_points)
    (Some [3; 3]) (Some [0; 1; 2; 0; 1; 7]) [] "" "" [].

(** Two triangles announced, four indices given. *)
Definition short : Prim Z :=
  mkPrim "/World/Short" "Mesh" true false true [] (Some corner_points)
    (Some [3; 3]) (Some [0; 1; 2; 0]) [] "" "" [].

Definition broken_fs : gmap string (File Z) :=
  {[ "broken.usda" :=
       UsdFile (Grid.stage_of
                  [Grid.leaf "/World" "Xform" false false true [] [] [broken; short]]) ]}.

(** Answers of the bindings for the box: three attributes, one of them
    without a value, and a bound material. *)
Definition box_answers : PrimAnswers Z :=
  mkPrimAnswers
    (fun prim =>
       if String.eqb (prim_path prim) "/World/Box"
       then [("doubleSided", Some "False"); ("normals", None);
             ("orientation", Some "rightHanded")]
       else [])
    (fun prim => is_a_mesh prim)
    (fun prim =>
       if String.eqb (prim_path prim) "/World/Box" then Some "/Looks/Steel" else None).

(** A directory in which a leading [./] does not change the file a path
    names. *)
Definition strip_dot (path : string) : string :=
  match path with
  | String "." (String "/" rest) => rest
  | _ => path
  end.

Definition dot_os : Os := {|
  realpath := strip_dot;
  can_open_w := fun path => negb (String.eqb (strip_dot path) "");
  text_bytes := fun text => Returns (encode text)
|}.

End Scenes.

(** ** Vectors of binary32 floats

    The arithmetic of [Gf.Vec3f] on IEEE-754 binary32 values, with the
    operations of the standard library's [SpecFloat] at precision 24 and
    maximal exponent 128: the difference of two vectors and the cross
    product by components, the length as the square root of the dot
    product, all rounded to binary32 as pxr computes them. [str] of a
    float and GetNormalized are left as parameters. *)
Module Binary32.

Definition float := SpecFloat.spec_float.
Definition add : float -> float -> float := SpecFloat.SFadd 24 128.
Definition sub : float -> float -> float := SpecFloat.SFsub 24 128.
Definition mul : float -> float -> float := SpecFloat.SFmul 24 128.
Definition sqrt : float -> float := SpecFloat.SFsqrt 24 128.

Definition zero : float := SpecFloat.S754_zero false.

(** The binary32 pattern: sign, biased exponent, fraction. *)
Definition bits (x : float) : Z :=
  match x with
  | SpecFloat.S754_zero s => if s then 2 ^ 31 else 0
  | SpecFloat.S754_infinity s => (if s then 2 ^ 31 else 0) + 255 * 2 ^ 23
  | SpecFloat.S754_nan => 255 * 2 ^ 23 + 2 ^ 22
  | SpecFloat.S754_finite s m e =>
      (if s then 2 ^ 31 else 0)
      + (if Z.pos m <? 2 ^ 23 then Z.pos m
         else (e + 150) * 2 ^ 23 + (Z.pos m - 2 ^ 23))
  end.

(** [x > 0]. *)
Definition gt_zero (x : float) : bool :=
  match SpecFloat.SFcompare x zero with
  | Some Gt => true
  | _ => false
  end.

Definition vsub (a b : Vec3f float) : Vec3f float :=
  mkVec3f (sub (vx a) (vx b)) (sub (vy a) (vy b)) (sub (vz a) (vz b)).

Definition cross (a b : Vec3f float) : Vec3f float :=
  mkVec3f (sub (mul (vy a) (vz b)) (mul (vz a) (vy b)))
          (sub (mul (vz a) (vx b)) (mul (vx a) (vz b)))
          (sub (mul (vx a) (vy b)) (mul (vy a) (vx b))).

Definition dot (a b : Vec3f float) : float :=
  add (add (mul (vx a) (vx b)) (mul (vy a) (vy b))) (mul (vz a) (vz b)).

Definition len (a : Vec3f float) : float := sqrt (dot a a).

Definition gf (str : float -> string) (normalized : Vec3f float -> Vec3f float)
  : GfFloat float := {|
  f_zero := zero;
  f_gt_zero := gt_zero;
  f32_bits := bits;
  f_str := str;
  vec_sub := vsub;
  vec_cross := cross;
  GetLength := len;
  GetNormalized := normalized
|}.

(** Two to the power of minus forty, and a triangle with two sides of
    that length at a right angle. *)
Definition small : float := SpecFloat.S754_finite false 8388608 (-63).

Definition small_points : list (Vec3f float) :=
  [mkVec3f zero zero zero; mkVec3f small zero zero; mkVec3f zero small zero].

End Binary32.

(** * Properties *)

(** ** Bytes *)

Lemma length_le_bytes (n : nat) (x : Z) : length (le_bytes n x) = n.
Proof. unfold le_bytes. now rewrite length_fmap, length_seq. Qed.

Lemma le_bytes_range (n : nat) (x : Z) :
  Forall (fun b => 0 <= b < 256) (le_bytes n x).
Proof.
  unfold le_bytes. apply Forall_fmap, Forall_forall. intros i _. simpl.
  apply Z.mod_pos_bound. lia.
Qed.

Lemma le_value_le_bytes_4 (x : Z) :
  0 <= x < 2 ^ 32 -> le_value (le_bytes 4 x) = x.
Proof.
  intros Hx. unfold le_bytes. cbn [fmap list_fmap seq le_value Z.of_nat].
  change (256 ^ 0) with 1. change (256 ^ Z.pos 1) with 256.
  change (256 ^ Z.pos (Pos.of_succ_nat 1)) with 65536.
  change (256 ^ Z.pos (Pos.of_succ_nat 2)) with 16777216.
  change (2 ^ 32) with 4294967296 in Hx.
  Z.div_mod_to_equations. lia.
Qed.

Lemma Returns_inj {A} (a b : A) : Returns a = Returns b -> a = b.
Proof. now intros [= ->]. Qed.

Lemma pack_I_Returns (n : Z) (bs : list Z) :
  pack_I n = Returns bs -> 0 <= n < 2 ^ 32 /\ bs = le_bytes 4 n.
Proof.
  unfold pack_I. destruct (n <? 0) eqn:Hlo; [discriminate|].
  destruct (2 ^ 32 <=? n) eqn:Hhi; [discriminate|]. simpl.
  intros [= <-]. split; [lia | reflexivity].
Qed.

(** ** Triangulation *)

Lemma py_getitem_lookup {A} (l : list A) (i : nat) (a : A) :
  l !! i = Some a -> py_getitem l (Z.of_nat i) = Returns a.
Proof.
  intros Hl. pose proof (lookup_lt_Some _ _ _ Hl) as Hlt.
  unfold py_getitem.
  destruct (Z.of_nat i <? 0) eqn:Hneg; [lia|].
  rewrite Hneg. simpl.
  destruct (Z.of_nat (length l) <=? Z.of_nat i) eqn:Hge; [lia|].
  now rewrite Nat2Z.id, Hl.
Qed.

Lemma mapM_Returns {A B} (f : A -> outcome B) (l : list A) (k : list B) :
  Forall2 (fun x y => f x = Returns y) l k -> mapM f l = Returns k.
Proof.
  induction 1 as [|x y l k Hxy _ IH]; [reflexivity|].
  simpl. rewrite Hxy. simpl. rewrite IH. reflexivity.
Qed.

Lemma length_fan (face : list Z) : length (fan face) = (length face - 2)%nat.
Proof.
  destruct face as [|v0 rest]; [reflexivity|].
  unfold fan. rewrite length_fmap, length_zip_with.
  destruct rest; cbn [length tail]; lia.
Qed.

(** The triangle number [k] of a fan is (v0, v(k+1), v(k+2)). *)
Lemma fan_lookup (face : list Z) (k : nat) (a b c : Z) :
  face !! 0%nat = Some a -> face !! S k = Some b -> face !! S (S k) = Some c ->
  fan face !! k = Some (a, b, c).
Proof.
  destruct face as [|v0 rest]; [discriminate|].
  simpl. intros [= ->] Hb Hc.
  rewrite list_lookup_fmap, lookup_zip_with, lookup_tail, Hb, Hc.
  reflexivity.
Qed.

(** One face: the indices [face] sit at offset [length pre]. *)
Lemma face_triangles_fan (pre face post : list Z) :
  face_triangles (pre ++ face ++ post) (Z.of_nat (length pre))
    (Z.of_nat (length face)) = Returns (fan face).
Proof.
  unfold face_triangles, py_range. apply mapM_Returns.
  apply Forall2_same_length_lookup_2.
  - rewrite length_seqZ, length_fan. lia.
  - intros i x y Hx Hy.
    apply lookup_seqZ in Hx as [-> Hi].
    assert (Hat : forall j : nat, (j < length face)%nat ->
              exists v, face !! j = Some v /\
                py_getitem (pre ++ face ++ post) (Z.of_nat (length pre) + Z.of_nat j)
                  = Returns v).
    { intros j Hj. destruct (lookup_lt_is_Some_2 face j Hj) as [v Hv].
      exists v. split; [exact Hv|].
      rewrite <- Nat2Z.inj_add. apply py_getitem_lookup.
      rewrite lookup_app_r by lia.
      replace (length pre + j - length pre)%nat with j by lia.
      now apply lookup_app_l_Some. }
    destruct (Hat 0%nat ltac:(lia)) as (a & Ha & Ga).
    destruct (Hat (S i) ltac:(lia)) as (b & Hb & Gb).
    destruct (Hat (S (S i)) ltac:(lia)) as (c & Hc & Gc).
    rewrite (fan_lookup face i a b c Ha Hb Hc) in Hy. injection Hy as <-.
    replace (Z.of_nat (length pre)) with (Z.of_nat (length pre) + Z.of_nat 0) at 1
      by (simpl; lia).
    rewrite Ga. simpl.
    replace (Z.of_nat (length pre) + (1 + Z.of_nat i))
      with (Z.of_nat (length pre) + Z.of_nat (S i)) by lia.
    rewrite Gb. simpl.
    replace (Z.of_nat (length pre) + Z.of_nat (S i) + 1)
      with (Z.of_nat (length pre) + Z.of_nat (S (S i))) by lia.
    rewrite Gc. reflexivity.
Qed.

(** The loop over the faces, started at the offset of the first one. *)
Lemma triangulate_from_fans (faces : list (list Z)) :
  forall pre post,
    triangulate_from (pre ++ concat faces ++ post) (Z.of_nat (length pre))
      (Z.of_nat <$> (length <$> faces))
    = Returns (concat (fan <$> faces)).
Proof.
  induction faces as [|face faces IH]; intros pre post; [reflexivity|].
  cbn [fmap list_fmap concat triangulate_from].
  rewrite <- (app_assoc face). rewrite face_triangles_fan.
  cbn [mbind outcome_bind].
  rewrite <- Nat2Z.inj_add, <- length_app.
  rewrite (app_assoc pre face). rewrite IH. reflexivity.
Qed.

Lemma fan_total_length (faces : list (list Z)) :
  Forall (fun face => (3 <= length face)%nat) faces ->
  fan_total (Z.of_nat <$> (length <$> faces))
  = Z.of_nat (length (concat (fan <$> faces))).
Proof.
  induction 1 as [|face faces Hface _ IH]; [reflexivity|].
  cbn [fmap list_fmap concat fan_total foldr].
  rewrite length_app, length_fan. unfold fan_total in IH.
  rewrite Nat2Z.inj_add, <- IH. lia.
Qed.

(** ** Indexing and the triangulation loop *)

Lemma py_getitem_elem_of {A} (l : list A) (i : Z) (a : A) :
  py_getitem l i = Returns a -> a ∈ l.
Proof.
  unfold py_getitem.
  destruct ((_ <? 0) || (_ <=? _)); [discriminate|].
  destruct (l !! _) as [b|] eqn:Hl; [|discriminate].
  intros Hr. apply Returns_inj in Hr. subst b.
  eapply list_elem_of_lookup_2. exact Hl.
Qed.

Lemma py_getitem_ok {A} (l : list A) (i : Z) :
  index_ok l i -> exists a, py_getitem l i = Returns a.
Proof.
  unfold index_ok, py_getitem. intros Hi.
  set (n := Z.of_nat (length l)) in *.
  set (j := if i <? 0 then i + n else i).
  assert (Hj : 0 <= j < n) by (subst j; destruct (i <? 0) eqn:E; lia).
  destruct (j <? 0) eqn:E1; [lia|]. destruct (n <=? j) eqn:E2; [lia|]. simpl.
  destruct (lookup_lt_is_Some_2 l (Z.to_nat j)) as [a Ha]; [lia|].
  rewrite Ha. eauto.
Qed.

Lemma py_getitem_bad {A} (l : list A) (i : Z) :
  ~ index_ok l i -> py_getitem l i = Raises IndexError.
Proof.
  unfold index_ok, py_getitem. intros Hi.
  set (n := Z.of_nat (length l)) in *.
  destruct (i <? 0) eqn:E.
  - destruct (i + n <? 0) eqn:E1; [reflexivity|]. lia.
  - destruct (i <? 0) eqn:E1; [discriminate|].
    destruct (n <=? i) eqn:E2; [reflexivity|]. lia.
Qed.

Lemma mapM_Returns_inv {A B} (f : A -> outcome B) (l : list A) (k : list B) :
  mapM f l = Returns k -> Forall2 (fun x y => f x = Returns y) l k.
Proof.
  revert k. induction l as [|x l IH]; intros k; simpl.
  - intros Hr. apply Returns_inj in Hr. subst k. constructor.
  - destruct (f x) as [y|] eqn:Hx; [|discriminate]. simpl.
    destruct (mapM f l) as [k'|]; [|discriminate]. simpl.
    intros Hr. apply Returns_inj in Hr. subst k. constructor; auto.
Qed.

Lemma mapM_total {A B} (f : A -> outcome B) (l : list A) :
  Forall (fun x => exists y, f x = Returns y) l -> exists k, mapM f l = Returns k.
Proof.
  induction 1 as [|x l [y Hy] _ [k Hk]]; [exists []; reflexivity|].
  exists (y :: k). simpl. rewrite Hy. simpl. rewrite Hk. reflexivity.
Qed.

(** A face of fewer than three vertices gives no triangle and reads no
    index. *)
Lemma face_triangles_degenerate (indices : list Z) (idx count : Z) :
  count <= 2 -> face_triangles indices idx count = Returns [].
Proof.
  intros Hc. unfold face_triangles, py_range.
  rewrite seqZ_nil by lia. reflexivity.
Qed.

Lemma face_triangles_length (indices : list Z) (idx count : Z)
    (tris : list (Z * Z * Z)) :
  face_triangles indices idx count = Returns tris ->
  Z.of_nat (length tris) = Z.max 0 (count - 2).
Proof.
  unfold face_triangles, py_range. intros Hr.
  apply mapM_Returns_inv, Forall2_length in Hr.
  rewrite <- Hr, length_seqZ. lia.
Qed.

Lemma face_triangles_elem_of (indices : list Z) (idx count : Z)
    (tris : list (Z * Z * Z)) (tri : Z * Z * Z) :
  face_triangles indices idx count = Returns tris ->
  tri ∈ tris ->
  tri.1.1 ∈ indices /\ tri.1.2 ∈ indices /\ tri.2 ∈ indices.
Proof.
  unfold face_triangles. intros Hr Hin.
  apply mapM_Returns_inv in Hr.
  apply list_elem_of_lookup in Hin as [k Hk].
  destruct (Forall2_lookup_r _ _ _ _ _ Hr Hk) as (i & _ & Hi).
  destruct (py_getitem indices idx) as [v0|] eqn:E0; [|discriminate].
  destruct (py_getitem indices (idx + i)) as [v1|] eqn:E1; [|discriminate].
  destruct (py_getitem indices (idx + i + 1)) as [v2|] eqn:E2; [|discriminate].
  simpl in Hi. apply Returns_inj in Hi. subst tri. simpl.
  repeat split; eapply py_getitem_elem_of; eassumption.
Qed.

Lemma face_triangles_total (indices : list Z) (idx count : Z) :
  0 <= idx -> idx + count <= Z.of_nat (length indices) ->
  exists tris, face_triangles indices idx count = Returns tris.
Proof.
  intros Hidx Hfit. unfold face_triangles, py_range.
  apply mapM_total, Forall_forall. intros i Hi.
  apply elem_of_seqZ in Hi.
  destruct (py_getitem_ok indices idx) as [v0 ->]; [unfold index_ok; lia|].
  destruct (py_getitem_ok indices (idx + i)) as [v1 ->]; [unfold index_ok; lia|].
  destruct (py_getitem_ok indices (idx + i + 1)) as [v2 ->]; [unfold index_ok; lia|].
  simpl. eauto.
Qed.

(** X1. A face count of two or less (zero and negative counts too) is
    passed over: it gives no triangle, no index is read for it, and the
    offset still moves by the count. *)
Theorem triangulate_skips_small_faces (indices : list Z) (idx count : Z)
    (rest : list Z) :
  count <= 2 ->
  triangulate_from indices idx (count :: rest)
  = triangulate_from indices (idx + count) rest.
Proof.
  intros Hc. cbn [triangulate_from]. rewrite face_triangles_degenerate by exact Hc.
  cbn [mbind outcome_bind].
  destruct (triangulate_from indices (idx + count) rest); reflexivity.
Qed.

Lemma triangulate_from_length (indices : list Z) (counts : list Z) :
  forall idx tris,
    triangulate_from indices idx counts = Returns tris ->
    Z.of_nat (length tris) = triangle_total counts.
Proof.
  induction counts as [|count rest IH]; intros idx tris; cbn [triangulate_from].
  - intros Hr. apply Returns_inj in Hr. subst tris. reflexivity.
  - destruct (face_triangles indices idx count) as [face|] eqn:Hface; [|discriminate].
    cbn [mbind outcome_bind].
    destruct (triangulate_from indices (idx + count) rest) as [more|] eqn:Hmore;
      [|discriminate].
    intros Hr. apply Returns_inj in Hr. subst tris.
    rewrite length_app, Nat2Z.inj_add.
    rewrite (face_triangles_length _ _ _ _ Hface), (IH _ _ Hmore). reflexivity.
Qed.

(** X2. Whatever the counts are, a triangulation that returns has
    [max(0, count - 2)] triangles per face. *)
Theorem triangulate_length (counts indices : list Z) (tris : list (Z * Z * Z)) :
  triangulate counts indices = Returns tris ->
  Z.of_nat (length tris) = triangle_total counts.
Proof. apply triangulate_from_length. Qed.

Lemma triangulate_from_elem_of (indices : list Z) (counts : list Z) :
  forall idx tris tri,
    triangulate_from indices idx counts = Returns tris ->
    tri ∈ tris ->
    tri.1.1 ∈ indices /\ tri.1.2 ∈ indices /\ tri.2 ∈ indices.
Proof.
  induction counts as [|count rest IH]; intros idx tris tri; cbn [triangulate_from].
  - intros Hr. apply Returns_inj in Hr. subst tris. intros Hin. inversion Hin.
  - destruct (face_triangles indices idx count) as [face|] eqn:Hface; [|discriminate].
    cbn [mbind outcome_bind].
    destruct (triangulate_from indices (idx + count) rest) as [more|] eqn:Hmore;
      [|discriminate].
    intros Hr. apply Returns_inj in Hr. subst tris.
    intros Hin. apply elem_of_app in Hin as [Hin|Hin].
    + eapply face_triangles_elem_of; eassumption.
    + eapply IH; eassumption.
Qed.

(** X3. The three corners of every triangle are entries of the face
    index array: the triangulation makes up no index. *)
Theorem triangulate_corners (counts indices : list Z) (tris : list (Z * Z * Z))
    (tri : Z * Z * Z) :
  triangulate counts indices = Returns tris ->
  tri ∈ tris ->
  tri.1.1 ∈ indices /\ tri.1.2 ∈ indices /\ tri.2 ∈ indices.
Proof. apply triangulate_from_elem_of. Qed.

Lemma triangulate_from_total (indices : list Z) (counts : list Z) :
  forall idx,
    Forall (fun count => 0 <= count) counts ->
    0 <= idx -> idx + sum_counts counts <= Z.of_nat (length indices) ->
    exists tris, triangulate_from indices idx counts = Returns tris.
Proof.
  induction counts as [|count rest IH]; intros idx Hpos Hidx Hfit.
  - exists []. reflexivity.
  - apply Forall_cons in Hpos as [Hc Hrest].
    cbn [sum_counts foldr] in Hfit. fold (sum_counts rest) in Hfit.
    assert (Hsum : 0 <= sum_counts rest).
    { clear -Hrest. induction Hrest as [|c cs Hc _ IHc]; simpl; [lia|].
      fold (sum_counts cs). lia. }
    destruct (face_triangles_total indices idx count) as [face Hface]; [lia|lia|].
    destruct (IH (idx + count)) as [more Hmore]; [assumption|lia|lia|].
    exists (face ++ more). cbn [triangulate_from]. rewrite Hface.
    cbn [mbind outcome_bind]. rewrite Hmore. reflexivity.
Qed.

(** X4. With no negative count and at least [sum(counts)] indices, the
    triangulation returns: no lookup is out of range. *)
Theorem triangulate_total (counts indices : list Z) :
  Forall (fun count => 0 <= count) counts ->
  sum_counts counts <= Z.of_nat (length indices) ->
  exists tris, triangulate counts indices = Returns tris.
Proof.
  intros Hpos Hfit. apply triangulate_from_total; [assumption|lia|lia].
Qed.

(** ** The export *)

Section MeshExport.
Context {F : Type} `{GfFloat F} `{Os}.

Lemma length_pack_3f (v : Vec3f F) : length (pack_3f v) = 12%nat.
Proof. unfold pack_3f. now rewrite !length_app, !length_le_bytes. Qed.

Lemma stl_record_Returns (points : list (Vec3f F)) (tri : Z * Z * Z) (r : list Z) :
  stl_record points tri = Returns r ->
  stl_record_of points tri r /\ length r = 50%nat.
Proof.
  destruct tri as [[t0 t1] t2]. unfold stl_record, stl_record_of.
  cbn [fst snd].
  destruct (py_getitem points t0) as [p0|] eqn:E0; [|discriminate].
  destruct (py_getitem points t1) as [p1|] eqn:E1; [|discriminate].
  destruct (py_getitem points t2) as [p2|] eqn:E2; [|discriminate].
  unfold mbind, outcome_bind, mret, outcome_ret.
  change (pack_H 0) with (Returns [0; 0]).
  intros Hr. apply Returns_inj in Hr. subst r. split.
  - exists p0, p1, p2, (triangle_normal p0 p1 p2).
    repeat (split; [reflexivity|]). now rewrite <- !app_assoc.
  - rewrite !length_app, !length_pack_3f. reflexivity.
Qed.


(** What a complete run of the record loop has written. *)
Lemma write_records_complete (points : list (Vec3f F)) (triangles : list (Z * Z * Z)) :
  forall written bytes,
    write_records points triangles written = (bytes, None) ->
    exists records,
      bytes = written ++ concat records /\
      Forall2 (fun tri r => stl_record points tri = Returns r) triangles records.
Proof.
  induction triangles as [|tri rest IH]; intros written bytes; simpl.
  - intros [= <-]. exists []. simpl. rewrite app_nil_r. split; [reflexivity|constructor].
  - destruct (stl_record points tri) as [r|e] eqn:Er; [|discriminate].
    intros Hw. destruct (IH _ _ Hw) as (records & -> & Hall).
    exists (r :: records). simpl. rewrite <- app_assoc. split; [reflexivity|].
    constructor; assumption.
Qed.

Lemma length_concat_records (records : list (list Z)) :
  Forall (fun r => length r = 50%nat) records ->
  Z.of_nat (length (concat records)) = 50 * Z.of_nat (length records).
Proof.
  induction 1 as [|r rs Hr _ IH]; simpl; [reflexivity|].
  rewrite length_app. lia.
Qed.

Lemma records_of (points : list (Vec3f F)) (triangles : list (Z * Z * Z))
    (records : list (list Z)) :
  Forall2 (fun tri r => stl_record points tri = Returns r) triangles records ->
  Forall2 (stl_record_of points) triangles records /\
  Forall (fun r => length r = 50%nat) records /\
  Z.of_nat (length (stl_file triangles records))
  = 84 + 50 * Z.of_nat (length triangles).
Proof.
  intros Hall.
  assert (Hof : Forall2 (stl_record_of points) triangles records).
  { eapply Forall2_impl; [exact Hall|]. intros tri r Hr.
    now apply stl_record_Returns in Hr. }
  assert (Hlen : Forall (fun r => length r = 50%nat) records).
  { clear Hof. induction Hall as [|tri r tris rs Hr _ IH]; constructor; [|exact IH].
    now apply stl_record_Returns in Hr. }
  split; [exact Hof|]. split; [exact Hlen|].
  unfold stl_file.
  rewrite !length_app, length_replicate, length_le_bytes.
  rewrite !Nat2Z.inj_add, (length_concat_records _ Hlen).
  rewrite <- (Forall2_length _ _ _ Hall). lia.
Qed.

(** A successful payload is no error payload. *)
Lemma export_payload_ok (fs : gmap string (File F)) (output fmt : string)
    (triangles : list (Z * Z * Z)) :
  is_error (export_payload fs output fmt triangles) = false.
Proof. reflexivity. Qed.

Lemma export_payload_fields (fs : gmap string (File F)) (output fmt : string)
    (triangles : list (Z * Z * Z)) :
  let payload := export_payload fs output fmt triangles in
  field payload "output" = Some (JStr output) /\
  field payload "format" = Some (JStr fmt) /\
  field payload "triangles" = Some (JInt (Z.of_nat (length triangles))) /\
  field payload "size_bytes" = Some (JInt (getsize fs output)) /\
  field payload "status" = Some (JStr "ok").
Proof. repeat split. Qed.

(** What is at the output after a write, and its size. *)
Lemma write_file_kept (fs : gmap string (File F)) (output : string) (bytes : list Z) :
  keeps_bytes fs output ->
  write_file fs output bytes !! realpath output = Some (Blob bytes) /\
  getsize (write_file fs output bytes) output = Z.of_nat (length bytes).
Proof.
  intros Hkeeps. unfold write_file, getsize.
  destruct (fs !! realpath output) as [[stage|old|size]|] eqn:E;
    try (rewrite lookup_insert_eq; split; reflexivity).
  exfalso. exact (Hkeeps size E).
Qed.

Lemma write_file_other (fs : gmap string (File F)) (output other : string)
    (bytes : list Z) :
  other <> realpath output -> write_file fs output bytes !! other = fs !! other.
Proof.
  intros Hne. unfold write_file.
  destruct (fs !! realpath output) as [[stage|old|size]|];
    try reflexivity; apply lookup_insert_ne; congruence.
Qed.

Lemma obj_lines_fold {A} (line : A -> string) (items : list A) (lines : list string) :
  fold_left (fun lines item => lines ++ [line item]) items lines
  = lines ++ map line items.
Proof.
  revert lines. induction items as [|x items IH]; intros lines; simpl.
  - now rewrite app_nil_r.
  - rewrite IH. now rewrite <- app_assoc.
Qed.

Lemma fold_left_pointwise {A B} (f g : A -> B -> A) (l : list B) (a : A) :
  (forall a b, f a b = g a b) -> fold_left f l a = fold_left g l a.
Proof.
  intros Hfg. revert a. induction l as [|b l IH]; intros a; [reflexivity|].
  simpl. rewrite Hfg. apply IH.
Qed.

Lemma obj_text_lines (prim_path : string) (points : list (Vec3f F))
    (triangles : list (Z * Z * Z)) :
  obj_text prim_path points triangles
  = join (String "010" "")
      (("# Exported from " +:+ prim_path)
         :: map obj_vertex_line points ++ map obj_face_line triangles).
Proof.
  unfold obj_text. f_equal.
  rewrite (fold_left_pointwise _ (fun lines tri => lines ++ [obj_face_line tri]))
    by (intros lines [[t0 t1] t2]; reflexivity).
  rewrite obj_lines_fold.
  rewrite (fold_left_pointwise _ (fun lines p => lines ++ [obj_vertex_line p]))
    by reflexivity.
  rewrite obj_lines_fold. now rewrite <- app_assoc.
Qed.

Lemma length_encode (s : string) : length (encode s) = String.length s.
Proof.
  unfold encode. rewrite length_fmap.
  induction s as [|a s IH]; simpl; [reflexivity|now rewrite IH].
Qed.

(** Past the two error returns, export_mesh is its triangulation and its
    write. *)
Lemma export_mesh_on_mesh (fs : gmap string (File F))
    (path prim_path output fmt : string)
    (points : list (Vec3f F)) (counts indices : list Z) :
  mesh_at fs path prim_path points counts indices ->
  export_mesh fs path prim_path output fmt
  = match triangulate counts indices with
    | Raises e => (Raises e, fs)
    | Returns triangles =>
        if String.eqb fmt "obj" then
          if can_open_w output then
            match text_bytes (obj_text prim_path points triangles) with
            | Raises e => (Raises e, write_file fs output [])
            | Returns bytes =>
                (Returns (export_payload (write_file fs output bytes) output fmt
                            triangles),
                 write_file fs output bytes)
            end
          else (Raises OSError, fs)
        else
          if can_open_w output then
            let fs' := write_file fs output (write_stl points triangles).1 in
            match (write_stl points triangles).2 with
            | Some e => (Raises e, fs')
            | None => (Returns (export_payload fs' output fmt triangles), fs')
            end
          else (Raises OSError, fs)
    end.
Proof.
  intros (stage & prim & Hopen & Hprim & Hmesh & Hp & Hc & Hi & Hpn & Hcn & Hin).
  unfold export_mesh. rewrite Hopen, Hprim, Hmesh, Hp, Hc, Hi. simpl.
  destruct points as [|p ps]; [congruence|].
  destruct counts as [|c cs]; [congruence|].
  destruct indices as [|i ixs]; [congruence|].
  destruct (triangulate (c :: cs) (i :: ixs)) as [triangles|e]; [|reflexivity].
  destruct (String.eqb fmt "obj"); [reflexivity|].
  destruct (can_open_w output); [|reflexivity].
  destruct (write_stl (p :: ps) triangles) as [bytes [e|]]; reflexivity.
Qed.

(** What a call that returns a payload without an [error] went through. *)
Lemma export_mesh_success (fs fs' : gmap string (File F))
    (path prim_path output fmt : string) (payload : json F) :
  export_mesh fs path prim_path output fmt = (Returns payload, fs') ->
  is_error payload = false ->
  exists stage prim points counts indices triangles,
    _open_stage fs path = Returns stage /\
    GetPrimAtPath stage prim_path = Some prim /\
    is_a_mesh prim = true /\
    mesh_points prim = Some points /\
    mesh_face_vertex_counts prim = Some counts /\
    mesh_face_vertex_indices prim = Some indices /\
    triangulate counts indices = Returns triangles /\
    can_open_w output = true /\
    payload = export_payload fs' output fmt triangles /\
    (String.eqb fmt "obj" = false ->
     (write_stl points triangles).2 = None /\
     fs' = write_file fs output (write_stl points triangles).1).
Proof.
  unfold export_mesh. intros Hrun Hok.
  destruct (_open_stage fs path) as [stage|e] eqn:Hopen; [|discriminate].
  destruct (GetPrimAtPath stage prim_path) as [prim|] eqn:Hprim;
    [|injection Hrun as <- <-; discriminate].
  destruct (is_a_mesh prim) eqn:Hmesh; simpl in Hrun;
    [|injection Hrun as <- <-; discriminate].
  destruct (mesh_points prim) as [[|p ps]|] eqn:Hp;
    try (injection Hrun as <- <-; discriminate).
  destruct (mesh_face_vertex_counts prim) as [[|c cs]|] eqn:Hc;
    try (injection Hrun as <- <-; discriminate).
  destruct (mesh_face_vertex_indices prim) as [[|i ixs]|] eqn:Hi;
    try (injection Hrun as <- <-; discriminate).
  destruct (triangulate (c :: cs) (i :: ixs)) as [triangles|e] eqn:Htri;
    [|discriminate].
  exists stage, prim, (p :: ps), (c :: cs), (i :: ixs), triangles.
  destruct (can_open_w output) eqn:Hcan;
    [|destruct (String.eqb fmt "obj"); discriminate].
  destruct (String.eqb fmt "obj") eqn:Hfmt.
  - destruct (text_bytes (obj_text prim_path (p :: ps) triangles)) as [bytes|e];
      [|discriminate].
    injection Hrun as <- <-. repeat split; try assumption; try reflexivity;
      discriminate.
  - destruct (write_stl (p :: ps) triangles) as [bytes [e|]] eqn:Hw;
      [discriminate|].
    injection Hrun as <- <-. repeat split; try assumption; reflexivity.
Qed.

(** What a complete binary write has put into the file. *)
Lemma write_stl_complete (points : list (Vec3f F)) (triangles : list (Z * Z * Z)) :
  (write_stl points triangles).2 = None ->
  exists records,
    (write_stl points triangles).1 = stl_file triangles records /\
    0 <= Z.of_nat (length triangles) < 2 ^ 32 /\
    Forall2 (fun tri r => stl_record points tri = Returns r) triangles records.
Proof.
  unfold write_stl, stl_file.
  destruct (pack_I (Z.of_nat (length triangles))) as [count|e] eqn:Hcount;
    [|discriminate].
  apply pack_I_Returns in Hcount as [Hrange ->].
  destruct (write_records points triangles
              (replicate 80 0 ++ le_bytes 4 (Z.of_nat (length triangles))))
    as [bytes failure] eqn:Hw.
  simpl. intros ->.
  apply write_records_complete in Hw as (records & -> & Hall).
  exists records. rewrite <- app_assoc. auto.
Qed.

Lemma stl_record_total (points : list (Vec3f F)) (tri : Z * Z * Z) :
  corners_ok points tri -> exists record, stl_record points tri = Returns record.
Proof.
  destruct tri as [[t0 t1] t2]. intros (H0' & H1' & H2'). simpl in *.
  unfold stl_record.
  destruct (py_getitem_ok _ _ H0') as [p0 ->].
  destruct (py_getitem_ok _ _ H1') as [p1 ->].
  destruct (py_getitem_ok _ _ H2') as [p2 ->].
  eexists. reflexivity.
Qed.

Lemma write_records_all (points : list (Vec3f F)) (triangles : list (Z * Z * Z)) :
  Forall (corners_ok points) triangles ->
  forall written,
  exists records,
    Forall2 (fun tri r => stl_record points tri = Returns r) triangles records /\
    write_records points triangles written = (written ++ concat records, None).
Proof.
  induction 1 as [|tri rest Htri _ IH]; intros written.
  - exists []. split; [constructor|]. simpl. now rewrite app_nil_r.
  - destruct (stl_record_total _ _ Htri) as [record Hrecord].
    destruct (IH (written ++ record)) as (records & Hall & Hw).
    exists (record :: records). split; [now constructor|].
    cbn [write_records concat]. rewrite Hrecord, Hw. now rewrite <- app_assoc.
Qed.

(** A binary write of triangles with corners in range is complete. *)
Lemma write_stl_all (points : list (Vec3f F)) (triangles : list (Z * Z * Z)) :
  Forall (corners_ok points) triangles ->
  Z.of_nat (length triangles) < 2 ^ 32 ->
  exists records,
    Forall2 (fun tri r => stl_record points tri = Returns r) triangles records /\
    write_stl points triangles = (stl_file triangles records, None).
Proof.
  intros Hok Hsmall. unfold write_stl, pack_I, stl_file.
  destruct (Z.of_nat (length triangles) <? 0) eqn:E1; [lia|].
  destruct (2 ^ 32 <=? Z.of_nat (length triangles)) eqn:E2; [lia|].
  simpl orb. cbv iota.
  destruct (write_records_all _ _ Hok
              (replicate 80 0 ++ le_bytes 4 (Z.of_nat (length triangles))))
    as (records & Hall & Hw).
  exists records. split; [exact Hall|]. rewrite Hw. now rewrite <- app_assoc.
Qed.

(** The run of the binary branch on triangles with corners in range. *)
Lemma export_mesh_binary_run (fs : gmap string (File F))
    (path prim_path output fmt : string)
    (points : list (Vec3f F)) (counts indices : list Z)
    (triangles : list (Z * Z * Z)) :
  fmt <> "obj" ->
  mesh_at fs path prim_path points counts indices ->
  triangulate counts indices = Returns triangles ->
  Forall (corners_ok points) triangles ->
  Z.of_nat (length triangles) < 2 ^ 32 ->
  can_open_w output = true ->
  exists records,
    Forall2 (stl_record_of points) triangles records /\
    export_mesh fs path prim_path output fmt
    = (Returns (export_payload
                  (write_file fs output (stl_file triangles records))
                  output fmt triangles),
       write_file fs output (stl_file triangles records)).
Proof.
  intros Hfmt Hmesh Htri Hok Hsmall Hcan.
  apply String.eqb_neq in Hfmt.
  rewrite (export_mesh_on_mesh _ _ _ _ _ _ _ _ Hmesh), Htri, Hfmt, Hcan.
  destruct (write_stl_all _ _ Hok Hsmall) as (records & Hall & Hw).
  exists records. split; [now apply records_of in Hall|].
  rewrite Hw. reflexivity.
Qed.

(** C2. A binary-format export_mesh call that succeeds with N triangles
    has written exactly 84 + 50 N bytes: eighty zero bytes, the count N as
    four little-endian bytes (reading them back gives N), then one record
    of fifty bytes for each triangle of the triangulated mesh, in order,
    each the twelve bytes of the normal of that triangle, the thirty-six
    bytes of its three corners taken from [points], and two zero bytes.
    When the output keeps what is written to it, it holds these bytes
    afterwards and the payload reports their number. *)
Theorem export_mesh_binary_layout (fs fs' : gmap string (File F))
    (path prim_path output fmt : string) (payload : json F) :
  fmt <> "obj" ->
  export_mesh fs path prim_path output fmt = (Returns payload, fs') ->
  is_error payload = false ->
  exists stage prim points counts indices triangles records,
    _open_stage fs path = Returns stage /\
    GetPrimAtPath stage prim_path = Some prim /\
    mesh_points prim = Some points /\
    mesh_face_vertex_counts prim = Some counts /\
    mesh_face_vertex_indices prim = Some indices /\
    triangulate counts indices = Returns triangles /\
    let N := Z.of_nat (length triangles) in
    field payload "triangles" = Some (JInt N) /\
    Forall2 (stl_record_of points) triangles records /\
    Forall (fun r => length r = 50%nat) records /\
    le_value (le_bytes 4 N) = N /\
    Z.of_nat (length (stl_file triangles records)) = 84 + 50 * N /\
    fs' = write_file fs output (stl_file triangles records) /\
    (keeps_bytes fs output ->
     fs' !! realpath output = Some (Blob (stl_file triangles records)) /\
     field payload "size_bytes" = Some (JInt (84 + 50 * N))).
Proof.
  intros Hfmt Hrun Hok.
  apply String.eqb_neq in Hfmt.
  destruct (export_mesh_success _ _ _ _ _ _ _ Hrun Hok)
    as (stage & prim & points & counts & indices & triangles
        & Hopen & Hprim & _ & Hp & Hc & Hi & Htri & _ & -> & Hdone).
  destruct (Hdone Hfmt) as [Hnone ->].
  destruct (write_stl_complete _ _ Hnone) as (records & Hbytes & Hrange & Hall).
  rewrite Hbytes.
  destruct (records_of _ _ _ Hall) as (Hof & Hlen & Hsize).
  exists stage, prim, points, counts, indices, triangles, records.
  repeat (split; [assumption|]). cbv zeta.
  split; [reflexivity|]. split; [exact Hof|]. split; [exact Hlen|].
  split; [now apply le_value_le_bytes_4|]. split; [exact Hsize|].
  split; [reflexivity|].
  intros Hkeeps.
  destruct (write_file_kept fs output (stl_file triangles records) Hkeeps)
    as [Hat Hgetsize].
  split; [exact Hat|].
  destruct (export_payload_fields
              (write_file fs output (stl_file triangles records))
              output fmt triangles) as (_ & _ & _ & -> & _).
  now rewrite Hgetsize, Hsize.
Qed.

(** C3. For a mesh whose faces all have at least three vertices,
    export_mesh splits the face [v0, v1, ..., v(n-1)] into the n-2
    triangles (v0, v1, v2), (v0, v2, v3), ..., (v0, v(n-2), v(n-1)), face
    after face and in that order: these are the triangles whose [f] lines
    the text format writes and whose records the binary format writes,
    and the payload reports [sum(count - 2)] of them. [faces] lists the
    index run of each face; the counts are their lengths and the index
    array is their concatenation (indices past the last face are never
    read). *)
Theorem export_mesh_fan_triangulation (fs : gmap string (File F))
    (path prim_path output fmt : string) (points : list (Vec3f F))
    (faces : list (list Z)) (extra : list Z) :
  Forall (fun face => (3 <= length face)%nat) faces ->
  let counts := Z.of_nat <$> (length <$> faces) in
  let indices := concat faces ++ extra in
  let fans := concat (fan <$> faces) in
  mesh_at fs path prim_path points counts indices ->
  can_open_w output = true ->
  (forall face, face ∈ faces ->
     length (fan face) = (length face - 2)%nat /\
     forall k : nat, (k + 2 < length face)%nat ->
       fan face !! k
       = Some (face !!! 0%nat, face !!! (k + 1)%nat, face !!! (k + 2)%nat)) /\
  Z.of_nat (length fans) = fan_total counts /\
  (fmt = "obj" ->
   forall bytes,
     text_bytes (join (String "010" "")
                   (("# Exported from " +:+ prim_path)
                      :: map obj_vertex_line points ++ map obj_face_line fans))
     = Returns bytes ->
     exists payload,
       export_mesh fs path prim_path output fmt
       = (Returns payload, write_file fs output bytes) /\
       field payload "triangles" = Some (JInt (fan_total counts))) /\
  (fmt <> "obj" ->
   Forall (index_ok points) indices ->
   fan_total counts < 2 ^ 32 ->
   exists payload records,
     export_mesh fs path prim_path output fmt
     = (Returns payload, write_file fs output (stl_file fans records)) /\
     Forall2 (stl_record_of points) fans records /\
     field payload "triangles" = Some (JInt (fan_total counts))).
Proof.
  intros Hfaces counts indices fans Hmesh Hcan.
  assert (Htri : triangulate counts indices = Returns fans).
  { unfold triangulate, counts, indices, fans.
    exact (triangulate_from_fans faces [] extra). }
  assert (Htotal : Z.of_nat (length fans) = fan_total counts).
  { symmetry. now apply fan_total_length. }
  split; [|split; [exact Htotal|split]].
  - intros face Hin. split; [apply length_fan|].
    intros k Hk.
    replace (k + 1)%nat with (S k) by lia.
    replace (k + 2)%nat with (S (S k)) by lia.
    apply fan_lookup; apply list_lookup_lookup_total_lt; lia.
  - intros -> bytes Htext.
    rewrite (export_mesh_on_mesh _ _ _ _ _ _ _ _ Hmesh), Htri, Hcan.
    change (String.eqb "obj" "obj") with true. cbv iota.
    rewrite obj_text_lines, Htext.
    eexists. split; [reflexivity|].
    destruct (export_payload_fields (write_file fs output bytes) output "obj" fans)
      as (_ & _ & -> & _).
    now rewrite Htotal.
  - intros Hfmt Hidx Hsmall.
    assert (Hok : Forall (corners_ok points) fans).
    { apply Forall_forall. intros tri Hin.
      destruct (triangulate_from_elem_of _ _ _ _ _ Htri Hin) as (H0' & H1' & H2').
      rewrite Forall_forall in Hidx. unfold corners_ok.
      split; [apply Hidx, H0'|]. split; [apply Hidx, H1'|apply Hidx, H2']. }
    destruct (export_mesh_binary_run fs path prim_path output fmt points counts
                indices fans Hfmt Hmesh Htri Hok) as (records & Hof & Hrun);
      [lia|exact Hcan|].
    eexists _, records. split; [exact Hrun|]. split; [exact Hof|].
    destruct (export_payload_fields
                (write_file fs output (stl_file fans records)) output fmt fans)
      as (_ & _ & -> & _).
    now rewrite Htotal.
Qed.

(** C8, as the code has it. Every record the binary export writes
    starts with the normal of its triangle: with c the cross product of
    (p1 - p0) and (p2 - p0), the normal is the normalized c when the
    computed length of c is greater than zero; otherwise c is written as
    it is, GetNormalized is not called and nothing fails. *)
Theorem export_mesh_normal (points : list (Vec3f F)) (tri : Z * Z * Z)
    (record : list Z) :
  stl_record points tri = Returns record ->
  exists p0 p1 p2 normal,
    py_getitem points tri.1.1 = Returns p0 /\
    py_getitem points tri.1.2 = Returns p1 /\
    py_getitem points tri.2 = Returns p2 /\
    record = pack_3f normal ++ pack_3f p0 ++ pack_3f p1 ++ pack_3f p2 ++ [0; 0] /\
    let c := vec_cross (vec_sub p1 p0) (vec_sub p2 p0) in
    (f_gt_zero (GetLength c) = true -> normal = GetNormalized c) /\
    (f_gt_zero (GetLength c) = false -> normal = c).
Proof.
  destruct tri as [[t0 t1] t2]. unfold stl_record.
  destruct (py_getitem points t0) as [p0|] eqn:E0; [|discriminate].
  destruct (py_getitem points t1) as [p1|] eqn:E1; [|discriminate].
  destruct (py_getitem points t2) as [p2|] eqn:E2; [|discriminate].
  unfold mbind, outcome_bind, mret, outcome_ret.
  change (pack_H 0) with (Returns [0; 0]).
  intros Hr. apply Returns_inj in Hr. subst record.
  exists p0, p1, p2, (triangle_normal p0 p1 p2).
  split; [exact E0|]. split; [exact E1|]. split; [exact E2|].
  split; [reflexivity|].
  unfold triangle_normal. cbv zeta.
  destruct (f_gt_zero (GetLength (vec_cross (vec_sub p1 p0) (vec_sub p2 p0))));
    split; intros; try reflexivity; discriminate.
Qed.

(** C9. Any format other than the exact string [obj] takes the binary
    branch. On a mesh whose triangles have their corners in [points] the
    call writes the binary bytes of these triangles to the output and the
    payload gives the caller's format string back unchanged; and whatever
    happens, the call leaves the storage as the same call with [stl]
    does. *)
Theorem export_mesh_other_formats (fs : gmap string (File F))
    (path prim_path output fmt : string)
    (points : list (Vec3f F)) (counts indices : list Z)
    (triangles : list (Z * Z * Z)) :
  fmt <> "obj" ->
  mesh_at fs path prim_path points counts indices ->
  triangulate counts indices = Returns triangles ->
  Forall (corners_ok points) triangles ->
  Z.of_nat (length triangles) < 2 ^ 32 ->
  can_open_w output = true ->
  exists payload records,
    export_mesh fs path prim_path output fmt
    = (Returns payload, write_file fs output (stl_file triangles records)) /\
    Forall2 (stl_record_of points) triangles records /\
    is_error payload = false /\
    field payload "format" = Some (JStr fmt) /\
    (keeps_bytes fs output ->
     (export_mesh fs path prim_path output fmt).2 !! realpath output
     = Some (Blob (stl_file triangles records))) /\
    (export_mesh fs path prim_path output fmt).2
    = (export_mesh fs path prim_path output "stl").2.
Proof.
  intros Hfmt Hmesh Htri Hok Hsmall Hcan.
  destruct (export_mesh_binary_run fs path prim_path output fmt points counts
              indices triangles Hfmt Hmesh Htri Hok Hsmall Hcan)
    as (records & Hof & Hrun).
  eexists _, records. split; [exact Hrun|]. split; [exact Hof|].
  split; [reflexivity|]. split; [reflexivity|]. split.
  - intros Hkeeps. rewrite Hrun. cbn [snd]. now apply write_file_kept.
  - apply String.eqb_neq in Hfmt.
    rewrite !(export_mesh_on_mesh _ _ _ _ _ _ _ _ Hmesh), Htri, Hfmt.
    change (String.eqb "stl" "obj") with false. cbv iota.
    destruct (can_open_w output); [|reflexivity].
    destruct (write_stl points triangles) as [bytes [e|]]; reflexivity.
Qed.

(** C10. When export_mesh returns an error payload, the storage is the
    one it was given: nothing was opened for writing. This is what happens
    when the path does not resolve, the prim is not a mesh, or one of
    points, face counts and face indices is absent or empty. *)
Theorem export_mesh_error_no_write (fs : gmap string (File F))
    (path prim_path output fmt : string) :
  (forall payload fs',
     export_mesh fs path prim_path output fmt = (Returns payload, fs') ->
     is_error payload = true ->
     fs' = fs) /\
  (forall stage,
     _open_stage fs path = Returns stage ->
     match GetPrimAtPath stage prim_path with
     | None => True
     | Some prim =>
         is_a_mesh prim = false \/ truthy (mesh_points prim) = false \/
         truthy (mesh_face_vertex_counts prim) = false \/
         truthy (mesh_face_vertex_indices prim) = false
     end ->
     exists msg,
       export_mesh fs path prim_path output fmt = (Returns (error_payload msg), fs)).
Proof.
  split.
  - intros payload fs'. unfold export_mesh.
    repeat case_match; intros [= <- <-]; try reflexivity;
      rewrite export_payload_ok; discriminate.
  - intros stage Hopen Hbad. unfold export_mesh. rewrite Hopen.
    destruct (GetPrimAtPath stage prim_path) as [prim|]; [|eauto].
    destruct (is_a_mesh prim); simpl; [|eauto].
    destruct (mesh_points prim) as [[|p ps]|]; eauto;
      destruct (mesh_face_vertex_counts prim) as [[|c cs]|]; eauto;
      destruct (mesh_face_vertex_indices prim) as [[|i ixs]|]; eauto.
    simpl in Hbad. intuition discriminate.
Qed.

End MeshExport.

(** ** The hierarchy *)

Section Hierarchy.
Context {F : Type} `{GfFloat F} `{Os}.

(** Induction over a prim with the property known of its children. *)
Lemma Prim_tree_ind (P : Prim F -> Prop) :
  (forall p, Forall P (children p) -> P p) -> forall p, P p.
Proof.
  intros step. fix rec 1. intros p. apply step.
  destruct p as [? ? ? ? ? ? ? ? ? ? ? ? kids]. simpl.
  induction kids as [|k kids IH]; constructor; [apply rec|exact IH].
Qed.

Lemma node_count_JDict (kvs : list (string * json F)) :
  node_count (JDict kvs)
  = S (foldr (fun kv acc => (children_nodes kv + acc)%nat) O kvs).
Proof.
  simpl. f_equal. induction kvs as [|[k v] rest IH]; [reflexivity|].
  cbn [foldr]. rewrite <- IH. reflexivity.
Qed.

(** A node of the walk counts itself and the walks of its children. *)
Lemma node_count_walk_step (prim : Prim F) :
  node_count (_walk prim) = S (list_nodes (map _walk (children prim))).
Proof.
  destruct prim as [path type m ma x vs pts counts ixs ss lt wt kids].
  cbn [_walk children prim_path prim_type mesh_face_vertex_counts].
  rewrite node_count_JDict.
  destruct (String.eqb type "Mesh"), counts as [[|c cs]|], (map _walk kids);
    cbv [dict_set foldr children_nodes fst snd String.eqb Ascii.eqb Bool.eqb];
    rewrite ?Nat.add_0_r; reflexivity.
Qed.

Lemma node_count_walk (prim : Prim F) :
  node_count (_walk prim) = length (prim_range prim).
Proof.
  induction prim as [prim IH] using Prim_tree_ind.
  rewrite node_count_walk_step.
  destruct prim as [? ? ? ? ? ? ? ? ? ? ? ? kids].
  cbn [children prim_range length] in *. f_equal.
  induction IH as [|k kids Hk _ IHkids]; [reflexivity|].
  cbn [map list_nodes foldr flat_map]. rewrite length_app, Hk.
  f_equal. exact IHkids.
Qed.

Lemma list_nodes_walk (prims : list (Prim F)) :
  list_nodes (map _walk prims) = length (flat_map prim_range prims).
Proof.
  induction prims as [|p prims IH]; [reflexivity|].
  cbn [map list_nodes foldr flat_map].
  rewrite length_app, node_count_walk. f_equal. exact IH.
Qed.

(** The loop of scene_stats adds one to [prim_count] for each prim. *)
Lemma prim_count_fold (prims : list (Prim F)) (c : Counters) :
  prim_count (fold_left count_prim prims c)
  = prim_count c + Z.of_nat (length prims).
Proof.
  revert c. induction prims as [|p prims IH]; intros c; [simpl; lia|].
  cbn [fold_left length]. rewrite IH.
  assert (prim_count (count_prim c p) = prim_count c + 1) as ->.
  { unfold count_prim. repeat case_match; reflexivity. }
  lia.
Qed.

(** C6, as the code has it. The nodes in the nested output of
    inspect_scene are as many as scene_stats counts prims: both walk the
    prims below the pseudo-root, and neither counts the pseudo-root, so
    nothing is subtracted. *)
Theorem hierarchy_count_eq_prim_count (fs : gmap string (File F))
    (path : string) (stage : Stage F) :
  _open_stage fs path = Returns stage ->
  exists payload stats n,
    inspect_scene fs path = Returns payload /\
    scene_stats fs path = Returns stats /\
    field stats "prim_count" = Some (JInt n) /\
    Z.of_nat (scene_node_count payload) = n.
Proof.
  intros Hopen. unfold inspect_scene, scene_stats. rewrite Hopen.
  cbn [mbind outcome_bind mret outcome_ret].
  eexists _, _, _. split; [reflexivity|]. split; [reflexivity|].
  split; [reflexivity|].
  unfold scene_counters. rewrite prim_count_fold.
  cbn [prim_count scene_node_count field dict_get String.eqb Ascii.eqb Bool.eqb].
  fold (list_nodes (map _walk (children (pseudo_root stage)))).
  rewrite list_nodes_walk. unfold Traverse. lia.
Qed.

End Hierarchy.

(** C6 as stated fails: on the box scene inspect_scene reports four nodes
    and scene_stats a [prim_count] of four, not of five. *)
Lemma hierarchy_count_minus_root_fails :
  ~ (forall (fs : gmap string (File Z)) path payload stats n,
       inspect_scene fs path = Returns payload ->
       scene_stats fs path = Returns stats ->
       field stats "prim_count" = Some (JInt n) ->
       Z.of_nat (scene_node_count payload) = n - 1).
Proof.
  intros claim.
  specialize (claim Grid.box_fs "box.usda" _ _ 4 eq_refl eq_refl eq_refl).
  vm_compute in claim. discriminate.
Qed.

(** ** Queries and the variant switch *)

Lemma append_assoc (a b c : string) : (a +:+ b) +:+ c = a +:+ (b +:+ c).
Proof.
  induction a as [|x a IH]; [reflexivity|].
  change (String x ((a +:+ b) +:+ c) = String x (a +:+ (b +:+ c))).
  now rewrite IH.
Qed.

Lemma occurs_in_refl (s : string) : occurs_in s s.
Proof.
  exists "", "". change (s = s +:+ "").
  induction s as [|x s IH]; [reflexivity|].
  change (String x s = String x (s +:+ "")). now rewrite <- IH.
Qed.

Lemma occurs_in_context (part whole pre post : string) :
  occurs_in part whole -> occurs_in part (pre +:+ whole +:+ post).
Proof.
  intros (a & b & ->). exists (pre +:+ a), (b +:+ post).
  now rewrite !append_assoc.
Qed.

Lemma occurs_in_join (sep x : string) (l : list string) :
  x ∈ l -> occurs_in x (join sep l).
Proof.
  induction l as [|y l IH]; intros Hin; [inversion Hin|].
  apply elem_of_cons in Hin as [->|Hin].
  - destruct l as [|z l]; [apply occurs_in_refl|].
    exists "", (sep +:+ join sep (z :: l)). reflexivity.
  - destruct l as [|z l]; [inversion Hin|].
    change (join sep (y :: z :: l)) with (y +:+ sep +:+ join sep (z :: l)).
    destruct (IH Hin) as (a & b & ->).
    exists (y +:+ sep +:+ a), b. now rewrite !append_assoc.
Qed.

(** Every name of the list is in its [repr]. *)
Lemma occurs_in_repr_list (name : string) (names : list string) :
  name ∈ names -> occurs_in name (py_repr_list names).
Proof.
  intros Hin. unfold py_repr_list. apply occurs_in_context.
  assert (Hq : py_repr_str name ∈ map py_repr_str names)
    by (apply list_elem_of_In, in_map, list_elem_of_In, Hin).
  destruct (occurs_in_join ", " _ _ Hq) as (a & b & ->).
  exists (a +:+ "'"), ("'" +:+ b). unfold py_repr_str.
  now rewrite !append_assoc.
Qed.

Section Queries.
Context {F : Type} `{GfFloat F} `{Os}.

(** set_variant has no statement that writes: whatever it returns, the
    storage is the one it was given. *)
Lemma set_variant_storage (fs : gmap string (File F))
    (path prim_path variant_set variant : string) :
  (set_variant fs path prim_path variant_set variant).2 = fs.
Proof. unfold set_variant. repeat case_match; reflexivity. Qed.

(** C7. set_variant checks in this order: the prim (Prim not found), the
    variant set on that prim (Variant set not found), the variant among
    the names of the set (Variant not found, with the names of the set in
    the message); otherwise it returns the path, the set, the variant now
    selected and the status. *)
Theorem set_variant_validation (fs : gmap string (File F))
    (path prim_path variant_set variant : string) (stage : Stage F) :
  _open_stage fs path = Returns stage ->
  let result := (set_variant fs path prim_path variant_set variant).1 in
  (GetPrimAtPath stage prim_path = None ->
   result = Returns (error_payload ("Prim not found: " +:+ prim_path))) /\
  (forall prim,
     GetPrimAtPath stage prim_path = Some prim ->
     HasVariantSet prim variant_set = false ->
     result = Returns (error_payload ("Variant set not found: " +:+ variant_set))) /\
  (forall prim vset,
     GetPrimAtPath stage prim_path = Some prim ->
     GetVariantSet prim variant_set = Some vset ->
     variant ∉ vset_variants vset ->
     exists msg,
       result = Returns (error_payload msg) /\
       msg = "Variant not found: " +:+ variant +:+ ". Available: "
               +:+ py_repr_list (vset_variants vset) /\
       forall name, name ∈ vset_variants vset -> occurs_in name msg) /\
  (forall prim vset,
     GetPrimAtPath stage prim_path = Some prim ->
     GetVariantSet prim variant_set = Some vset ->
     variant ∈ vset_variants vset ->
     result = Returns (JDict [("path", JStr prim_path);
                             ("variant_set", JStr variant_set);
                             ("selected", JStr variant);
                             ("status", JStr "ok")])).
Proof.
  intros Hopen result. subst result. unfold set_variant. rewrite Hopen.
  split; [|split; [|split]].
  - intros ->. reflexivity.
  - intros prim -> Hset. unfold HasVariantSet in Hset.
    destruct (GetVariantSet prim variant_set); [discriminate|reflexivity].
  - intros prim vset -> -> Hnot.
    rewrite bool_decide_eq_false_2 by exact Hnot. simpl.
    eexists. split; [reflexivity|]. split; [reflexivity|].
    intros name Hin.
    destruct (occurs_in_repr_list name _ Hin) as (a & b & Hab).
    exists ("Variant not found: " +:+ variant +:+ ". Available: " +:+ a), b.
    rewrite Hab, !append_assoc. reflexivity.
  - intros prim vset -> -> Hin.
    rewrite bool_decide_eq_true_2 by exact Hin. reflexivity.
Qed.

(** C4, as the code has it. With an explicit path that does not resolve
    to a prim, get_transforms skips the invalid prim and returns the
    success payload with an empty [transforms] list. *)
Theorem get_transforms_unresolved_path (fs : gmap string (File F))
    (path prim_path : string) (stage : Stage F) :
  _open_stage fs path = Returns stage ->
  prim_path <> "" ->
  GetPrimAtPath stage prim_path = None ->
  get_transforms fs path (Some prim_path)
  = Returns (JDict [("transforms", JList [])]).
Proof.
  intros Hopen Hne Hnone. unfold get_transforms. rewrite Hopen.
  cbn [mbind outcome_bind mret outcome_ret].
  destruct prim_path as [|a s]; [congruence|].
  rewrite Hnone. reflexivity.
Qed.

(** The loop of get_materials keeps the materials in traversal order. *)
Lemma materials_fold (prims : list (Prim F)) (acc : list (json F)) :
  fold_left (fun materials prim =>
               if is_a_material prim then materials ++ [material_entry prim]
               else materials) prims acc
  = acc ++ map material_entry (List.filter is_a_material prims).
Proof.
  revert acc. induction prims as [|p prims IH]; intros acc; simpl.
  - now rewrite app_nil_r.
  - rewrite IH. destruct (is_a_material p); [|reflexivity].
    simpl. now rewrite <- app_assoc.
Qed.

(** C5, as the code has it. A Material prim whose surface output has no
    connected source does not make get_materials fail; its entry holds the
    path only, with neither a [shader] nor a [params] field. *)
Theorem get_materials_unconnected (fs : gmap string (File F)) (path : string)
    (stage : Stage F) (prim : Prim F) :
  _open_stage fs path = Returns stage ->
  prim ∈ Traverse stage ->
  is_a_material prim = true ->
  surface_sources prim = [] ->
  exists materials,
    get_materials fs path = Returns (JDict [("materials", JList materials)]) /\
    materials = map material_entry (List.filter is_a_material (Traverse stage)) /\
    material_entry prim ∈ materials /\
    material_entry prim = JDict [("path", JStr (prim_path prim))] /\
    field (material_entry prim) "shader" = None /\
    field (material_entry prim) "params" = None.
Proof.
  intros Hopen Hin Hmat Hsrc. unfold get_materials. rewrite Hopen.
  cbn [mbind outcome_bind mret outcome_ret]. rewrite materials_fold.
  eexists. split; [reflexivity|]. split; [reflexivity|].
  split.
  - apply list_elem_of_In, in_map, filter_In. split; [|exact Hmat].
    now apply list_elem_of_In.
  - unfold material_entry. rewrite Hsrc. repeat split.
Qed.

End Queries.

(** C4 as stated fails: for the path [/Nope], which no prim of the box
    scene has, get_transforms returns a payload without an error. *)
Lemma get_transforms_no_prim_not_found :
  ~ (forall (fs : gmap string (File Z)) path prim_path stage,
       _open_stage fs path = Returns stage ->
       GetPrimAtPath stage prim_path = None ->
       exists payload,
         get_transforms fs path (Some prim_path) = Returns payload /\
         is_error payload = true).
Proof.
  intros claim.
  destruct (claim Grid.box_fs "box.usda" "/Nope" _ eq_refl eq_refl)
    as (payload & Hrun & Herr).
  vm_compute in Hrun. apply Returns_inj in Hrun. subst payload.
  discriminate.
Qed.

(** C5 as stated fails: the entry of the material [/Looks/Bare], which has
    no connected shader, has no [params] field at all. *)
Lemma get_materials_params_omitted :
  ~ (forall (fs : gmap string (File Z)) path stage prim,
       _open_stage fs path = Returns stage ->
       prim ∈ Traverse stage ->
       is_a_material prim = true ->
       surface_sources prim = [] ->
       exists materials entry,
         get_materials fs path = Returns (JDict [("materials", JList materials)]) /\
         entry ∈ materials /\
         field entry "path" = Some (JStr (prim_path prim)) /\
         field entry "params" = Some (JDict [])).
Proof.
  intros claim.
  destruct (claim Grid.looks_fs "looks.usda" _ Grid.bare_material eq_refl)
    as (materials & entry & Hrun & Hin & Hpath & Hparams);
    [apply list_elem_of_In; vm_compute; auto | reflexivity | reflexivity |].
  vm_compute in Hrun. apply Returns_inj in Hrun.
  injection Hrun as <-.
  apply list_elem_of_In in Hin. destruct Hin as [<-|[<-|[]]].
  - discriminate Hparams.
  - discriminate Hpath.
Qed.

(** C1 is not what the code does. On a product whose [size] set has
    nothing selected, set_variant reports that [large] is now selected,
    yet the storage is unchanged and list_variants on the same path still
    reports the empty selection: the change was made on the stage in
    memory and never saved. *)
Theorem set_variant_selection_not_saved :
  let run := set_variant Grid.product_fs "product.usda" "/Product" "size" "large" in
  run.1 = Returns (JDict [("path", JStr "/Product");
                          ("variant_set", JStr "size");
                          ("selected", JStr "large");
                          ("status", JStr "ok")]) /\
  run.2 = Grid.product_fs /\
  list_variants run.2 "product.usda"
  = Returns (JDict [("variants",
       JList [JDict [("path", JStr "/Product");
                     ("variant_sets",
                      JList [JDict [("name", JStr "size");
                                    ("options", JList [JStr "small"; JStr "medium";
                                                       JStr "large"]);
                                    ("selected", JStr "")]])]])]).
Proof.
  cbv zeta. rewrite set_variant_storage. repeat split.
Qed.

(** ** The properties on the example scenes *)

(** On the grid only the zero vector has length zero. *)
Lemma grid_len_zero (v : Vec3f Z) : Grid.len v = 0 -> v = mkVec3f 0 0 0.
Proof.
  destruct v as [x y z]. unfold Grid.len, Grid.dot.
  cbn [vx vy vz]. intros Hs.
  pose proof (Z.square_nonneg x) as Hx.
  pose proof (Z.square_nonneg y) as Hy.
  pose proof (Z.square_nonneg z) as Hz.
  assert (Hn : 0 <= x * x + y * y + z * z) by lia.
  pose proof (Z.sqrt_spec _ Hn) as Hspec. cbv zeta in Hspec.
  rewrite Hs in Hspec. change (Z.succ 0 * Z.succ 0) with 1 in Hspec.
  assert (Hx0 : x * x = 0) by lia.
  assert (Hy0 : y * y = 0) by lia.
  assert (Hz0 : z * z = 0) by lia.
  apply Z.mul_eq_0 in Hx0, Hy0, Hz0.
  f_equal; lia.
Qed.


Lemma short_mesh_at :
  mesh_at Scenes.broken_fs "broken.usda" "/World/Short" Scenes.corner_points
    [3; 3] [0; 1; 2; 0].
Proof.
  eexists _, Scenes.short. repeat split; try reflexivity; discriminate.
Qed.

Lemma box_mesh_at :
  mesh_at Grid.box_fs "box.usda" "/World/Box" Grid.box_points
    (Z.of_nat <$> (length <$> Grid.box_faces)) (concat Grid.box_faces).
Proof.
  eexists _, Grid.box. repeat split; try reflexivity; discriminate.
Qed.

(** The unit box of six quads exports to twelve triangles and a file of
    684 bytes. *)
Example box_export_684 :
  Grid.box_export.1
  = Returns (JDict [("output", JStr "out.stl"); ("format", JStr "stl");
                    ("triangles", JInt 12); ("size_bytes", JInt 684);
                    ("status", JStr "ok")]).
Proof. vm_compute. reflexivity. Qed.

Lemma box_keeps_bytes (output : string) : keeps_bytes Grid.box_fs output.
Proof.
  intros size. unfold Grid.box_fs. cbn [realpath Grid.posix].
  destruct (decide (output = "box.usda")) as [->|Hne].
  - rewrite lookup_singleton_eq. discriminate.
  - rewrite lookup_singleton_ne by congruence. discriminate.
Qed.

Lemma box_corners_ok :
  Forall (index_ok Grid.box_points) (concat Grid.box_faces ++ []).
Proof.
  apply Forall_forall. intros i Hi. apply list_elem_of_In in Hi.
  unfold index_ok. simpl in *. intuition lia.
Qed.

Lemma box_triangles_ok :
  Forall (corners_ok Grid.box_points) (concat (fan <$> Grid.box_faces)).
Proof.
  apply Forall_forall. intros tri Hi. apply list_elem_of_In in Hi.
  unfold corners_ok, index_ok. simpl in Hi.
  repeat (destruct Hi as [<-|Hi]; [simpl; lia|]). destruct Hi.
Qed.

Lemma export_mesh_binary_layout_witness :
  exists triangles records,
    triangulate (Z.of_nat <$> (length <$> Grid.box_faces)) (concat Grid.box_faces)
    = Returns triangles /\
    Forall2 (stl_record_of Grid.box_points) triangles records /\
    Grid.box_export.2 !! "out.stl" = Some (Blob (stl_file triangles records)) /\
    field (Grid.payload_of Grid.box_export) "size_bytes"
    = Some (JInt (84 + 50 * Z.of_nat (length triangles))).
Proof.
  destruct (export_mesh_binary_layout Grid.box_fs Grid.box_export.2
              "box.usda" "/World/Box" "out.stl" "stl"
              (Grid.payload_of Grid.box_export))
    as (stage & prim & points & counts & indices & triangles & records
        & Hopen & Hprim & Hp & Hc & Hi & Htri & _ & Hof & _ & _ & _ & _ & Hkept).
  - discriminate.
  - vm_compute. reflexivity.
  - reflexivity.
  - apply Returns_inj in Hopen. subst stage.
    injection Hprim as <-. injection Hp as <-. injection Hc as <-.
    injection Hi as <-.
    destruct (Hkept (box_keeps_bytes "out.stl")) as [Hat Hsize].
    exists triangles, records. auto.
Defined.

Lemma export_mesh_fan_triangulation_witness :
  exists payload records,
    export_mesh Grid.box_fs "box.usda" "/World/Box" "out.stl" "stl"
    = (Returns payload,
       write_file Grid.box_fs "out.stl"
         (stl_file (concat (fan <$> Grid.box_faces)) records)) /\
    Forall2 (stl_record_of Grid.box_points) (concat (fan <$> Grid.box_faces)) records /\
    field payload "triangles" = Some (JInt 12).
Proof.
  destruct (export_mesh_fan_triangulation Grid.box_fs "box.usda" "/World/Box"
              "out.stl" "stl" Grid.box_points Grid.box_faces [])
    as (_ & _ & _ & Hbinary).
  - unfold Grid.box_faces. repeat constructor.
  - exact box_mesh_at.
  - reflexivity.
  - apply Hbinary.
    + discriminate.
    + exact box_corners_ok.
    + vm_compute. reflexivity.
Defined.

Lemma export_mesh_normal_witness :
  exists p0 p1 p2 normal : Vec3f Z,
    Grid.sliver_record
    = pack_3f normal ++ pack_3f p0 ++ pack_3f p1 ++ pack_3f p2 ++ [0; 0] /\
    (f_gt_zero (GetLength (vec_cross (vec_sub p1 p0) (vec_sub p2 p0))) = false ->
     normal = vec_cross (vec_sub p1 p0) (vec_sub p2 p0)).
Proof.
  destruct (export_mesh_normal
              [mkVec3f 0 0 0; mkVec3f 1 1 1; mkVec3f 2 2 2] (0, 1, 2)
              Grid.sliver_record)
    as (p0 & p1 & p2 & normal & _ & _ & _ & Hrec & _ & Hzero).
  - vm_compute. reflexivity.
  - exists p0, p1, p2, normal. auto.
Defined.

Lemma export_mesh_other_formats_witness :
  exists payload records,
    export_mesh Grid.box_fs "box.usda" "/World/Box" "out.ply" "ply"
    = (Returns payload,
       write_file Grid.box_fs "out.ply"
         (stl_file (concat (fan <$> Grid.box_faces)) records)) /\
    Forall2 (stl_record_of Grid.box_points) (concat (fan <$> Grid.box_faces)) records /\
    field payload "format" = Some (JStr "ply").
Proof.
  destruct (export_mesh_other_formats Grid.box_fs "box.usda" "/World/Box"
              "out.ply" "ply" Grid.box_points
              (Z.of_nat <$> (length <$> Grid.box_faces)) (concat Grid.box_faces)
              (concat (fan <$> Grid.box_faces)))
    as (payload & records & Hrun & Hof & _ & Hformat & _).
  - discriminate.
  - exact box_mesh_at.
  - vm_compute. reflexivity.
  - exact box_triangles_ok.
  - vm_compute. reflexivity.
  - reflexivity.
  - exists payload, records. auto.
Defined.

(** C8 as stated fails on binary32 floats. The triangle with corners
    (0, 0, 0), (2^-40, 0, 0) and (0, 2^-40, 0) has the cross product
    (0, 0, 2^-80); its dot product with itself underflows to zero, so its
    computed length is zero, and the record is written with the normal
    (0, 0, 2^-80), which is not the zero vector. *)
Lemma export_mesh_normal_underflow :
  ~ (forall (F : Type) (G : GfFloat F) (points : list (Vec3f F))
            (tri : Z * Z * Z) (record : list Z),
       stl_record points tri = Returns record ->
       exists p0 p1 p2 normal,
         py_getitem points tri.1.1 = Returns p0 /\
         py_getitem points tri.1.2 = Returns p1 /\
         py_getitem points tri.2 = Returns p2 /\
         record = pack_3f normal ++ pack_3f p0 ++ pack_3f p1 ++ pack_3f p2 ++ [0; 0] /\
         let c := vec_cross (vec_sub p1 p0) (vec_sub p2 p0) in
         (f_gt_zero (GetLength c) = true -> normal = GetNormalized c) /\
         (GetLength c = f_zero -> normal = mkVec3f f_zero f_zero f_zero)).
Proof.
  intros claim.
  pose (G := Binary32.gf (fun _ => "") (fun v => v)).
  destruct (claim Binary32.float G Binary32.small_points (0, 1, 2)
              (match stl_record (H := G) Binary32.small_points (0, 1, 2) with
               | Returns record => record
               | Raises _ => []
               end))
    as (p0 & p1 & p2 & normal & H0 & H1 & H2 & Hrecord & _ & Hzero).
  - vm_compute. reflexivity.
  - apply Returns_inj in H0. apply Returns_inj in H1. apply Returns_inj in H2.
    subst p0 p1 p2. cbv zeta in Hzero.
    rewrite Hzero in Hrecord by (vm_compute; reflexivity).
    vm_compute in Hrecord. discriminate Hrecord.
Qed.

Lemma export_mesh_error_no_write_witness :
  (export_mesh Grid.box_fs "box.usda" "/World/Hollow" "box.usda" "stl").2
  = Grid.box_fs.
Proof.
  apply (proj1 (export_mesh_error_no_write Grid.box_fs "box.usda" "/World/Hollow"
                  "box.usda" "stl")
           (error_payload "Mesh has no geometry data")).
  - vm_compute. reflexivity.
  - reflexivity.
Defined.

Lemma hierarchy_count_eq_prim_count_witness :
  exists payload stats n,
    inspect_scene Grid.box_fs "box.usda" = Returns payload /\
    scene_stats Grid.box_fs "box.usda" = Returns stats /\
    field stats "prim_count" = Some (JInt n) /\
    Z.of_nat (scene_node_count payload) = n.
Proof.
  apply (hierarchy_count_eq_prim_count Grid.box_fs "box.usda"
           (Grid.stage_of [Grid.world])).
  reflexivity.
Defined.

Lemma set_variant_validation_witness :
  exists msg,
    (set_variant Grid.product_fs "product.usda" "/Product" "size" "huge").1
    = Returns (error_payload msg) /\
    msg = "Variant not found: huge. Available: ['small', 'medium', 'large']" /\
    occurs_in "medium" msg.
Proof.
  destruct (set_variant_validation Grid.product_fs "product.usda" "/Product"
              "size" "huge" (Grid.stage_of [Grid.product]))
    as (_ & _ & Hvariant & _); [reflexivity|].
  destruct (Hvariant Grid.product
              (mkVariantSet "size" ["small"; "medium"; "large"] "")
              eq_refl eq_refl)
    as (msg & Hrun & Hmsg & Hnames).
  - intros Hin. repeat (apply elem_of_cons in Hin as [Hin|Hin]; [discriminate|]).
    inversion Hin.
  - exists msg. split; [exact Hrun|]. split; [exact Hmsg|].
    apply Hnames. apply list_elem_of_In. simpl. auto.
Defined.

Lemma get_transforms_unresolved_path_witness :
  get_transforms Grid.box_fs "box.usda" (Some "/Nope")
  = Returns (JDict [("transforms", JList [])]).
Proof.
  apply (get_transforms_unresolved_path Grid.box_fs "box.usda" "/Nope"
           (Grid.stage_of [Grid.world])).
  - reflexivity.
  - discriminate.
  - reflexivity.
Defined.

Lemma get_materials_unconnected_witness :
  exists materials,
    get_materials Grid.looks_fs "looks.usda"
    = Returns (JDict [("materials", JList materials)]) /\
    material_entry Grid.bare_material ∈ materials /\
    field (material_entry Grid.bare_material) "params" = None.
Proof.
  destruct (get_materials_unconnected Grid.looks_fs "looks.usda"
              (Grid.stage_of [Grid.leaf "/Looks" "Scope" false false false [] []
                                [Grid.bare_material; Grid.steel_material]])
              Grid.bare_material)
    as (materials & Hrun & _ & Hin & _ & _ & Hparams).
  - reflexivity.
  - apply list_elem_of_In. vm_compute. auto.
  - reflexivity.
  - reflexivity.
  - exists materials. auto.
Defined.

(** * Further properties *)

(** ** More on the export *)

Section MeshExportMore.
Context {F : Type} `{GfFloat F} `{Os}.

(** X5. Whatever a call of export_mesh does, it leaves every file other
    than the one [output] names as it was. *)
Theorem export_mesh_only_output (fs : gmap string (File F))
    (path prim_path output fmt other : string) :
  other <> realpath output ->
  (export_mesh fs path prim_path output fmt).2 !! other = fs !! other.
Proof.
  intros Hne. unfold export_mesh.
  repeat case_match; cbn [snd]; try reflexivity;
    now apply write_file_other.
Qed.






Lemma py_getitem_cases {A} (l : list A) (i : Z) :
  (exists a, py_getitem l i = Returns a) \/ py_getitem l i = Raises IndexError.
Proof.
  destruct (decide (index_ok l i)) as [Hok|Hbad].
  - left. now apply py_getitem_ok.
  - right. now apply py_getitem_bad.
Qed.

Lemma mapM_raises {A B} (f : A -> outcome B) (e : exn) (l : list A) :
  Forall (fun x => (exists y, f x = Returns y) \/ f x = Raises e) l ->
  Exists (fun x => f x = Raises e) l ->
  mapM f l = Raises e.
Proof.
  induction 1 as [|x l Hx _ IH]; intros Hex; [inversion Hex|].
  simpl. destruct Hx as [[y Hy]|Hx]; [|now rewrite Hx].
  rewrite Hy. simpl.
  apply Exists_cons in Hex as [Hex|Hex]; [congruence|].
  now rewrite (IH Hex).
Qed.

Lemma face_triangles_short (indices : list Z) (idx count : Z) :
  0 <= idx -> 3 <= count -> Z.of_nat (length indices) < idx + count ->
  face_triangles indices idx count = Raises IndexError.
Proof.
  intros Hidx Hcount Hshort. unfold face_triangles, py_range.
  apply mapM_raises.
  - apply Forall_forall. intros i _.
    destruct (py_getitem_cases indices idx) as [[v0 ->]| ->]; [|now right].
    destruct (py_getitem_cases indices (idx + i)) as [[v1 ->]| ->]; [|now right].
    destruct (py_getitem_cases indices (idx + i + 1)) as [[v2 ->]| ->]; [|now right].
    left. eexists. reflexivity.
  - apply Exists_exists. exists (count - 2). split.
    + apply elem_of_seqZ. lia.
    + destruct (py_getitem_cases indices idx) as [[v0 ->]| ->]; [|reflexivity].
      destruct (py_getitem_cases indices (idx + (count - 2))) as [[v1 ->]| ->];
        [|reflexivity].
      rewrite py_getitem_bad; [reflexivity|]. unfold index_ok. lia.
Qed.

Lemma triangulate_from_short (indices : list Z) (counts : list Z) :
  forall idx,
    Forall (fun count => 3 <= count) counts ->
    0 <= idx <= Z.of_nat (length indices) ->
    Z.of_nat (length indices) < idx + sum_counts counts ->
    triangulate_from indices idx counts = Raises IndexError.
Proof.
  induction counts as [|count rest IH]; intros idx Hbig Hidx Hshort.
  - simpl in Hshort. lia.
  - apply Forall_cons in Hbig as [Hc Hrest].
    cbn [sum_counts foldr] in Hshort. fold (sum_counts rest) in Hshort.
    cbn [triangulate_from].
    destruct (decide (idx + count <= Z.of_nat (length indices))) as [Hfit|Hover].
    + destruct (face_triangles_total indices idx count) as [face ->]; [lia|lia|].
      cbn [mbind outcome_bind]. rewrite IH; [reflexivity|assumption|lia|lia].
    + rewrite face_triangles_short by lia. reflexivity.
Qed.

(** X9. When every face has at least three vertices and the index array
    is shorter than [sum(counts)], export_mesh raises IndexError during
    the triangulation, in every format, and the storage stays as it was:
    the output is not created. *)
Theorem export_mesh_short_indices (fs : gmap string (File F))
    (path prim_path output fmt : string)
    (points : list (Vec3f F)) (counts indices : list Z) :
  mesh_at fs path prim_path points counts indices ->
  Forall (fun count => 3 <= count) counts ->
  Z.of_nat (length indices) < sum_counts counts ->
  export_mesh fs path prim_path output fmt = (Raises IndexError, fs).
Proof.
  intros Hmesh Hbig Hshort.
  rewrite (export_mesh_on_mesh _ _ _ _ _ _ _ _ Hmesh).
  unfold triangulate. rewrite triangulate_from_short; [reflexivity|assumption|lia|lia].
Qed.

End MeshExportMore.

(** ** More on the hierarchy and the statistics *)

Section HierarchyMore.
Context {F : Type} `{GfFloat F} `{Os}.

Lemma walk_paths_JDict (kvs : list (string * json F)) :
  walk_paths (JDict kvs) = foldr (fun kv acc => field_paths kv ++ acc) [] kvs.
Proof.
  simpl. induction kvs as [|[k v] rest IH]; [reflexivity|].
  cbn [foldr]. rewrite <- IH. reflexivity.
Qed.

Lemma faces_sum_JDict (kvs : list (string * json F)) :
  faces_sum (JDict kvs) = foldr (fun kv acc => field_faces kv + acc) 0 kvs.
Proof.
  simpl. induction kvs as [|[k v] rest IH]; [reflexivity|].
  cbn [foldr]. rewrite <- IH. reflexivity.
Qed.

Lemma walk_paths_step (prim : Prim F) :
  walk_paths (_walk prim) = prim_path prim :: list_paths (map _walk (children prim)).
Proof.
  destruct prim as [path type m ma x vs pts counts ixs ss lt wt kids].
  cbn [_walk children prim_path prim_type mesh_face_vertex_counts].
  rewrite walk_paths_JDict.
  destruct (String.eqb type "Mesh"), counts as [[|c cs]|], (map _walk kids);
    cbv [dict_set foldr field_paths fst snd String.eqb Ascii.eqb Bool.eqb];
    cbn [app]; rewrite ?app_nil_r; reflexivity.
Qed.

Lemma faces_sum_step (prim : Prim F) :
  faces_sum (_walk prim) = prim_faces prim + list_faces (map _walk (children prim)).
Proof.
  destruct prim as [path type m ma x vs pts counts ixs ss lt wt kids].
  unfold prim_faces.
  cbn [_walk children prim_path prim_type mesh_face_vertex_counts].
  rewrite faces_sum_JDict.
  destruct (String.eqb type "Mesh"), counts as [[|c cs]|], (map _walk kids);
    cbv [dict_set foldr field_faces fst snd String.eqb Ascii.eqb Bool.eqb];
    cbn [length]; change (list_faces (@nil (json F))) with 0; lia.
Qed.

Lemma list_paths_walk (prims : list (Prim F)) :
  list_paths (map _walk prims) = map prim_path (flat_map prim_range prims).
Proof.
  induction prims as [|p prims IH]; [reflexivity|].
  cbn [map list_paths foldr flat_map]. rewrite map_app. f_equal; [|exact IH].
  clear IH. induction p as [p IHp] using Prim_tree_ind.
  rewrite walk_paths_step.
  destruct p as [? ? ? ? ? ? ? ? ? ? ? ? kids].
  cbn [children prim_range prim_path map] in *. f_equal.
  induction IHp as [|k kids Hk _ IHkids]; [reflexivity|].
  cbn [map list_paths foldr flat_map]. rewrite map_app, Hk. f_equal. exact IHkids.
Qed.

Lemma list_faces_walk (prims : list (Prim F)) :
  list_faces (map _walk prims) = faces_of (flat_map prim_range prims).
Proof.
  assert (Happ : forall a b : list (Prim F), faces_of (a ++ b) = faces_of a + faces_of b).
  { intros a b. unfold faces_of. induction a as [|x a IHa]; [reflexivity|].
    cbn [app foldr]. rewrite IHa. lia. }
  induction prims as [|p prims IH]; [reflexivity|].
  cbn [map list_faces foldr flat_map]. rewrite Happ. f_equal; [|exact IH].
  clear IH. induction p as [p IHp] using Prim_tree_ind.
  rewrite faces_sum_step.
  destruct p as [pa ty m ma x vs pts fc ixs ss lt wt kids].
  cbn [children prim_range] in *.
  change (faces_of (?q :: ?l)) with (prim_faces q + faces_of l). f_equal.
  induction IHp as [|k kids Hk _ IHkids]; [reflexivity|].
  cbn [map list_faces foldr flat_map]. rewrite Happ, Hk. f_equal. exact IHkids.
Qed.

(** X10. Read depth first, the nested output of inspect_scene lists the
    paths of exactly the prims a traversal of the stage visits, in the
    order of the traversal. *)
Theorem inspect_scene_paths (fs : gmap string (File F)) (path : string)
    (stage : Stage F) :
  _open_stage fs path = Returns stage ->
  exists payload,
    inspect_scene fs path = Returns payload /\
    scene_paths payload = map prim_path (Traverse stage).
Proof.
  intros Hopen. unfold inspect_scene. rewrite Hopen.
  cbn [mbind outcome_bind mret outcome_ret].
  eexists. split; [reflexivity|].
  cbn [scene_paths field dict_get String.eqb Ascii.eqb Bool.eqb].
  apply list_paths_walk.
Qed.

Lemma scene_counters_fold (prims : list (Prim F)) (c : Counters) :
  fold_left count_prim prims c
  = mkCounters (prim_count c + Z.of_nat (length prims))
      (mesh_count c + Z.of_nat (length (of_type "Mesh" prims)))
      (material_count c + Z.of_nat (length (of_type "Material" prims)))
      (total_faces c + faces_of prims).
Proof.
  revert c. induction prims as [|p prims IH]; intros [pc mc mac tf].
  - simpl. f_equal; lia.
  - cbn [fold_left]. rewrite IH. unfold of_type, faces_of, prim_faces, count_prim.
    cbn [List.filter foldr length prim_count mesh_count material_count total_faces].
    destruct (String.eqb (prim_type p) "Mesh") eqn:Emesh.
    + apply String.eqb_eq in Emesh. rewrite Emesh.
      change (String.eqb "Mesh" "Material") with false.
      destruct (mesh_face_vertex_counts p) as [[|f fc]|];
        cbn [length prim_count mesh_count material_count total_faces];
        f_equal; lia.
    + destruct (String.eqb (prim_type p) "Material");
        cbn [length prim_count mesh_count material_count total_faces];
        f_equal; lia.
Qed.

(** X11. scene_stats reports the number of traversed prims, the number
    of them whose type name is Mesh, the number whose type name is
    Material, and the faces of the Mesh prims; [total_faces] is the sum of
    the [faces] fields inspect_scene reports for the same storage path. *)
Theorem scene_stats_counts (fs : gmap string (File F)) (path : string)
    (stage : Stage F) :
  _open_stage fs path = Returns stage ->
  exists stats payload,
    scene_stats fs path = Returns stats /\
    inspect_scene fs path = Returns payload /\
    field stats "prim_count" = Some (JInt (Z.of_nat (length (Traverse stage)))) /\
    field stats "mesh_count"
    = Some (JInt (Z.of_nat (length (of_type "Mesh" (Traverse stage))))) /\
    field stats "material_count"
    = Some (JInt (Z.of_nat (length (of_type "Material" (Traverse stage))))) /\
    field stats "total_faces" = Some (JInt (scene_faces payload)).
Proof.
  intros Hopen. unfold scene_stats, inspect_scene. rewrite Hopen.
  cbn [mbind outcome_bind mret outcome_ret].
  eexists _, _. split; [reflexivity|]. split; [reflexivity|].
  unfold scene_counters. rewrite scene_counters_fold.
  cbn [prim_count mesh_count material_count total_faces
       scene_faces field dict_get String.eqb Ascii.eqb Bool.eqb].
  rewrite list_faces_walk. fold (Traverse stage).
  repeat split.
Qed.

End HierarchyMore.

(** ** More on the queries *)

Lemma dict_get_set_eq {F} (d : list (string * json F)) (k : string) (v : json F) :
  dict_get (dict_set d k v) k = Some v.
Proof.
  induction d as [|[k' v'] d IH]; simpl.
  - now rewrite String.eqb_refl.
  - destruct (String.eqb k' k) eqn:E; simpl; rewrite E; [reflexivity|exact IH].
Qed.

Lemma dict_get_set_ne {F} (d : list (string * json F)) (k k' : string) (v : json F) :
  k <> k' -> dict_get (dict_set d k v) k' = dict_get d k'.
Proof.
  intros Hne. induction d as [|[k0 v0] d IH]; simpl.
  - apply String.eqb_neq in Hne. now rewrite Hne.
  - destruct (String.eqb k0 k) eqn:E; simpl.
    + apply String.eqb_eq in E. subst k0.
      apply String.eqb_neq in Hne. now rewrite Hne.
    + destruct (String.eqb k0 k'); [reflexivity|exact IH].
Qed.

Section QueriesMore.
Context {F : Type} `{GfFloat F} `{Os}.

Lemma GetPrimAtPath_Some (stage : Stage F) (p : string) (prim : Prim F) :
  GetPrimAtPath stage p = Some prim ->
  prim_path prim = p /\ prim ∈ prim_range (pseudo_root stage).
Proof.
  unfold GetPrimAtPath. intros Hfind. apply find_some in Hfind as [Hin Heq].
  apply String.eqb_eq in Heq. split; [exact Heq|now apply list_elem_of_In].
Qed.

(** X12. When the file the storage path names does not exist, every
    tool raises FileNotFoundError naming the path; none returns an error
    payload, and set_variant and export_mesh leave the storage as it
    was. *)
Theorem tools_missing_file (fs : gmap string (File F)) (path : string) :
  fs !! realpath path = None ->
  let e := FileNotFoundError ("File not found: " +:+ path) in
  inspect_scene fs path = Raises e /\
  get_materials fs path = Raises e /\
  list_variants fs path = Raises e /\
  scene_stats fs path = Raises e /\
  (forall prim_path, get_transforms fs path prim_path = Raises e) /\
  (forall pxr prim_path, get_prim pxr fs path prim_path = Raises e) /\
  (forall prim_path variant_set variant,
     set_variant fs path prim_path variant_set variant = (Raises e, fs)) /\
  (forall prim_path output fmt,
     export_mesh fs path prim_path output fmt = (Raises e, fs)).
Proof.
  intros Hnone e.
  assert (Hopen : _open_stage fs path = Raises e)
    by (unfold _open_stage; now rewrite Hnone).
  unfold inspect_scene, get_materials, list_variants, scene_stats,
    get_transforms, get_prim, set_variant, export_mesh.
  rewrite Hopen. repeat split.
Qed.

Lemma transforms_fold (prims : list (Prim F)) (acc : list (json F)) :
  fold_left (fun results prim =>
               match prim with
               | None => results
               | Some prim => results ++ [transform_entry prim]
               end) (map Some prims) acc
  = acc ++ map transform_entry prims.
Proof.
  revert acc. induction prims as [|p prims IH]; intros acc; simpl.
  - now rewrite app_nil_r.
  - rewrite IH. now rewrite <- app_assoc.
Qed.

(** X13. Without a prim path, get_transforms reports one entry for each
    Xformable prim of the traversal, in traversal order, and nothing else;
    the empty string as prim path is taken as no path. *)
Theorem get_transforms_all (fs : gmap string (File F)) (path : string)
    (stage : Stage F) :
  _open_stage fs path = Returns stage ->
  get_transforms fs path None
  = Returns (JDict [("transforms",
       JList (map transform_entry
                (filter (fun p => is_a_xformable p = true) (Traverse stage))))]) /\
  get_transforms fs path (Some "") = get_transforms fs path None.
Proof.
  intros Hopen. unfold get_transforms. rewrite Hopen.
  cbn [mbind outcome_bind mret outcome_ret].
  rewrite transforms_fold. split; reflexivity.
Qed.

(** X14. With a non-empty path that resolves, get_transforms reports
    exactly one entry, for that prim and under the requested path; the
    prim is not tested for being Xformable. *)
Theorem get_transforms_one (fs : gmap string (File F)) (path prim_path : string)
    (stage : Stage F) (prim : Prim F) :
  _open_stage fs path = Returns stage ->
  prim_path <> "" ->
  GetPrimAtPath stage prim_path = Some prim ->
  get_transforms fs path (Some prim_path)
  = Returns (JDict [("transforms",
       JList [JDict [("path", JStr prim_path);
                     ("local_transform", JStr (local_transform prim));
                     ("world_transform", JStr (world_transform prim))]])]).
Proof.
  intros Hopen Hne Hprim. unfold get_transforms. rewrite Hopen.
  cbn [mbind outcome_bind mret outcome_ret].
  destruct (GetPrimAtPath_Some _ _ _ Hprim) as [Hpath _].
  destruct prim_path as [|a s]; [congruence|].
  rewrite Hprim. cbn [fold_left app]. unfold transform_entry.
  now rewrite Hpath.
Qed.

Lemma variants_fold (prims : list (Prim F)) (acc : list (json F)) :
  fold_left (fun results prim =>
               match variant_sets prim with
               | [] => results
               | names =>
                   results ++
                     [JDict [("path", JStr (prim_path prim));
                             ("variant_sets", JList (map variant_set_entry names))]]
               end) prims acc
  = acc ++ map variants_entry (List.filter has_variant_sets prims).
Proof.
  revert acc. induction prims as [|p prims IH]; intros acc.
  - simpl. now rewrite app_nil_r.
  - cbn [fold_left List.filter]. rewrite IH.
    destruct (variant_sets p) as [|vs rest] eqn:E.
    + replace (has_variant_sets p) with false
        by (unfold has_variant_sets; now rewrite E).
      reflexivity.
    + replace (has_variant_sets p) with true
        by (unfold has_variant_sets; now rewrite E).
      cbn [map].
      change (variants_entry p)
        with (JDict [("path", JStr (prim_path p));
                     ("variant_sets",
                      JList (map (variant_set_entry (F := F)) (variant_sets p)))]).
      rewrite E. now rewrite <- app_assoc.
Qed.

(** X15. list_variants reports, in traversal order, one entry for each
    traversed prim that has a variant set and none for the others; the
    entry of a prim lists each of its sets with the options and the
    selection the set has in the stored stage. *)
Theorem list_variants_entries (fs : gmap string (File F)) (path : string)
    (stage : Stage F) :
  _open_stage fs path = Returns stage ->
  exists results,
    list_variants fs path = Returns (JDict [("variants", JList results)]) /\
    results = map variants_entry (List.filter has_variant_sets (Traverse stage)) /\
    (forall prim vset,
       prim ∈ Traverse stage -> vset ∈ variant_sets prim ->
       variants_entry prim ∈ results /\
       JDict [("name", JStr (vset_name vset));
              ("options", JList (map JStr (vset_variants vset)));
              ("selected", JStr (vset_selection vset))]
       ∈ map (variant_set_entry (F := F)) (variant_sets prim)).
Proof.
  intros Hopen. unfold list_variants. rewrite Hopen.
  cbn [mbind outcome_bind mret outcome_ret]. rewrite variants_fold.
  eexists. split; [reflexivity|]. split; [reflexivity|].
  intros prim vset Hprim Hvset. split.
  - apply list_elem_of_In, in_map, filter_In. split; [now apply list_elem_of_In|].
    unfold has_variant_sets. destruct (variant_sets prim); [inversion Hvset|reflexivity].
  - apply list_elem_of_In. apply (in_map variant_set_entry).
    now apply list_elem_of_In.
Qed.

(** The loops that collect set values into a dict. *)
Lemma prim_attrs_fold (name : string) (entries : list (string * option string)) :
  forall (d : list (string * json F)) (found : option string),
    dict_get d name = JStr <$> found ->
    dict_get
      (fold_left (fun attrs attr =>
                    match attr.2 with
                    | Some val => dict_set attrs attr.1 (JStr val)
                    | None => attrs
                    end) entries d) name
    = JStr <$> fold_left (fun found entry =>
                            if String.eqb entry.1 name then
                              match entry.2 with
                              | Some val => Some val
                              | None => found
                              end
                            else found) entries found.
Proof.
  induction entries as [|[k v] entries IH]; intros d found Hd; [exact Hd|].
  cbn [fold_left fst snd]. apply IH.
  destruct v as [val|].
  - destruct (String.eqb k name) eqn:E.
    + apply String.eqb_eq in E. subst k. apply dict_get_set_eq.
    + apply String.eqb_neq in E. now rewrite dict_get_set_ne.
  - destruct (String.eqb k name); exact Hd.
Qed.

Lemma prim_attrs_get (name : string) (entries : list (string * option string)) :
  dict_get (prim_attrs (F := F) entries) name = JStr <$> last_set name entries.
Proof. unfold prim_attrs, last_set. now apply prim_attrs_fold. Qed.

Lemma shader_params_attrs (inputs : list ShaderInput) :
  shader_params (F := F) inputs = prim_attrs (input_entries inputs).
Proof.
  unfold shader_params, prim_attrs, input_entries.
  generalize (@nil (string * json F)).
  induction inputs as [|inp inputs IH]; intros d; [reflexivity|].
  simpl. apply IH.
Qed.

Lemma material_entry_fold (path : string) (sources : list ShaderSource) :
  forall (source : ShaderSource) (acc : list (string * json F)),
    (acc = [("path", JStr path)] \/
     exists shader params,
       acc = [("path", JStr path); ("shader", shader); ("params", params)]) ->
    fold_left (fun shader_info source =>
                 dict_set
                   (dict_set shader_info "shader" (JStr (src_prim_path source)))
                   "params" (JDict (shader_params (src_inputs source))))
              (sources ++ [source]) acc
    = [("path", JStr path);
       ("shader", JStr (src_prim_path source));
       ("params", JDict (shader_params (F := F) (src_inputs source)))].
Proof.
  induction sources as [|s sources IH]; intros source acc Hacc.
  - destruct Hacc as [->|(sh & pa & ->)]; reflexivity.
  - cbn [app fold_left]. apply IH. right.
    destruct Hacc as [->|(sh & pa & ->)]; eexists _, _; reflexivity.
Qed.

(** X16. A material with connected sources is reported with the shader
    of the last source (earlier sources are overwritten), and its params
    hold, for each input name, the value of the last input of that name
    that has a value; inputs without a value are left out. *)
Theorem get_materials_last_source (fs : gmap string (File F)) (path : string)
    (stage : Stage F) (prim : Prim F)
    (earlier : list ShaderSource) (source : ShaderSource) :
  _open_stage fs path = Returns stage ->
  prim ∈ Traverse stage ->
  is_a_material prim = true ->
  surface_sources prim = earlier ++ [source] ->
  exists materials params,
    get_materials fs path = Returns (JDict [("materials", JList materials)]) /\
    material_entry prim ∈ materials /\
    material_entry prim
    = JDict [("path", JStr (prim_path prim));
             ("shader", JStr (src_prim_path source));
             ("params", JDict params)] /\
    forall name,
      dict_get params name
      = JStr <$> last_set name (input_entries (src_inputs source)).
Proof.
  intros Hopen Hin Hmat Hsrc. unfold get_materials. rewrite Hopen.
  cbn [mbind outcome_bind mret outcome_ret]. rewrite materials_fold.
  eexists _, (shader_params (src_inputs source)).
  split; [reflexivity|]. split; [|split].
  - apply list_elem_of_In, in_map, filter_In. split; [|exact Hmat].
    now apply list_elem_of_In.
  - unfold material_entry. rewrite Hsrc. f_equal.
    apply material_entry_fold. now left.
  - intros name. rewrite shader_params_attrs. apply prim_attrs_get.
Qed.

(** X17. get_prim returns the Prim not found payload for a path that
    does not resolve. For a prim it returns the requested path, the type
    name and the attributes; an attribute appears exactly when it has a
    value, and [material] appears exactly when the prim is a Gprim with a
    valid bound material. *)
Theorem get_prim_result (pxr : PrimAnswers F) (fs : gmap string (File F))
    (path prim_path : string) (stage : Stage F) :
  _open_stage fs path = Returns stage ->
  (GetPrimAtPath stage prim_path = None ->
   get_prim pxr fs path prim_path
   = Returns (error_payload ("Prim not found: " +:+ prim_path))) /\
  (forall prim,
     GetPrimAtPath stage prim_path = Some prim ->
     exists payload attrs,
       get_prim pxr fs path prim_path = Returns payload /\
       is_error payload = false /\
       field payload "path" = Some (JStr prim_path) /\
       field payload "type" = Some (JStr (prim_type prim)) /\
       field payload "attributes" = Some (JDict attrs) /\
       (forall name,
          dict_get attrs name = JStr <$> last_set name (GetAttributes pxr prim)) /\
       field payload "material"
       = (if is_a_gprim pxr prim then JStr <$> ComputeBoundMaterial pxr prim
          else None)).
Proof.
  intros Hopen. unfold get_prim. rewrite Hopen.
  cbn [mbind outcome_bind mret outcome_ret]. split.
  - intros ->. reflexivity.
  - intros prim ->.
    eexists _, (prim_attrs (GetAttributes pxr prim)).
    split; [reflexivity|].
    destruct (is_a_gprim pxr prim), (ComputeBoundMaterial pxr prim);
      (repeat split; try reflexivity; intros name; apply prim_attrs_get).
Qed.

End QueriesMore.

(** X18. After set_variant, whatever it returned, every query gives on
    the storage it leaves the answer it gave before the call. *)
Theorem set_variant_queries_unchanged {F : Type} `{GfFloat F} `{Os}
    (fs : gmap string (File F)) (path prim_path variant_set variant : string) :
  let fs' := (set_variant fs path prim_path variant_set variant).2 in
  forall p,
    list_variants fs' p = list_variants fs p /\
    inspect_scene fs' p = inspect_scene fs p /\
    get_materials fs' p = get_materials fs p /\
    scene_stats fs' p = scene_stats fs p /\
    (forall q, get_transforms fs' p q = get_transforms fs p q) /\
    (forall pxr q, get_prim pxr fs' p q = get_prim pxr fs p q).
Proof.
  cbv zeta. rewrite set_variant_storage. intros p. repeat split.
Qed.

(** ** The further properties on the example scenes *)

Lemma triangulate_skips_small_faces_witness :
  triangulate_from [0; 1; 2; 3] 0 [2; 1]
  = triangulate_from [0; 1; 2; 3] (0 + 2) [1].
Proof. apply triangulate_skips_small_faces. lia. Defined.

Lemma triangulate_length_witness :
  Z.of_nat (length (concat (fan <$> Grid.box_faces)))
  = triangle_total (Z.of_nat <$> (length <$> Grid.box_faces)).
Proof.
  apply (triangulate_length _ (concat Grid.box_faces)). vm_compute. reflexivity.
Defined.

Lemma triangulate_corners_witness :
  (0, 1, 7).1.1 ∈ [0; 1; 2; 0; 1; 7] /\ (0, 1, 7).1.2 ∈ [0; 1; 2; 0; 1; 7]
  /\ (0, 1, 7).2 ∈ [0; 1; 2; 0; 1; 7].
Proof.
  apply (triangulate_corners [3; 3] [0; 1; 2; 0; 1; 7] [(0, 1, 2); (0, 1, 7)]).
  - vm_compute. reflexivity.
  - apply list_elem_of_In. simpl. auto.
Defined.

Lemma triangulate_total_witness :
  exists tris, triangulate [4; 0; 3] [0; 1; 2; 3; 4; 5; 6] = Returns tris.
Proof.
  apply triangulate_total.
  - repeat constructor; lia.
  - vm_compute. discriminate.
Defined.

Lemma export_mesh_only_output_witness :
  (export_mesh (H0 := Scenes.dot_os) Grid.box_fs "box.usda" "/World/Box"
     "./out.stl" "stl").2 !! "box.usda"
  = Grid.box_fs !! "box.usda".
Proof.
  apply (export_mesh_only_output (H0 := Scenes.dot_os)). discriminate.
Defined.




Lemma export_mesh_short_indices_witness :
  export_mesh Scenes.broken_fs "broken.usda" "/World/Short" "out.stl" "stl"
  = (Raises IndexError, Scenes.broken_fs).
Proof.
  apply (export_mesh_short_indices Scenes.broken_fs "broken.usda" "/World/Short"
           "out.stl" "stl" Scenes.corner_points [3; 3] [0; 1; 2; 0] short_mesh_at).
  - repeat constructor; lia.
  - vm_compute. reflexivity.
Defined.

Lemma inspect_scene_paths_witness :
  exists payload,
    inspect_scene Grid.box_fs "box.usda" = Returns payload /\
    scene_paths payload
    = ["/World"; "/World/Box"; "/World/Hollow"; "/World/Sliver"].
Proof.
  destruct (inspect_scene_paths Grid.box_fs "box.usda" (Grid.stage_of [Grid.world]))
    as (payload & Hrun & Hpaths); [reflexivity|].
  exists payload. split; [exact Hrun|]. rewrite Hpaths. reflexivity.
Defined.

Lemma scene_stats_counts_witness :
  exists stats payload,
    scene_stats Grid.box_fs "box.usda" = Returns stats /\
    inspect_scene Grid.box_fs "box.usda" = Returns payload /\
    field stats "mesh_count" = Some (JInt 3) /\
    field stats "total_faces" = Some (JInt (scene_faces payload)).
Proof.
  destruct (scene_stats_counts Grid.box_fs "box.usda" (Grid.stage_of [Grid.world]))
    as (stats & payload & Hs & Hi & _ & Hm & _ & Hf); [reflexivity|].
  exists stats, payload. repeat split; assumption.
Defined.

Lemma tools_missing_file_witness :
  inspect_scene Grid.box_fs "nowhere.usda"
  = Raises (FileNotFoundError "File not found: nowhere.usda").
Proof.
  apply (tools_missing_file Grid.box_fs "nowhere.usda"). reflexivity.
Defined.

Lemma get_transforms_all_witness :
  get_transforms Grid.box_fs "box.usda" (Some "")
  = get_transforms Grid.box_fs "box.usda" None.
Proof.
  apply (get_transforms_all Grid.box_fs "box.usda" (Grid.stage_of [Grid.world])).
  reflexivity.
Defined.

Lemma get_transforms_one_witness :
  get_transforms Grid.looks_fs "looks.usda" (Some "/Looks/Bare")
  = Returns (JDict [("transforms",
       JList [JDict [("path", JStr "/Looks/Bare");
                     ("local_transform", JStr (local_transform Grid.bare_material));
                     ("world_transform", JStr (world_transform Grid.bare_material))]])]).
Proof.
  apply (get_transforms_one Grid.looks_fs "looks.usda" "/Looks/Bare"
           (Grid.stage_of [Grid.leaf "/Looks" "Scope" false false false [] []
                             [Grid.bare_material; Grid.steel_material]])).
  - reflexivity.
  - discriminate.
  - reflexivity.
Defined.

Lemma list_variants_entries_witness :
  exists results,
    list_variants Grid.product_fs "product.usda"
    = Returns (JDict [("variants", JList results)]) /\
    variants_entry Grid.product ∈ results.
Proof.
  destruct (list_variants_entries Grid.product_fs "product.usda"
              (Grid.stage_of [Grid.product]))
    as (results & Hrun & _ & Hentry); [reflexivity|].
  exists results. split; [exact Hrun|].
  apply (Hentry Grid.product (mkVariantSet "size" ["small"; "medium"; "large"] ""));
    apply list_elem_of_In; simpl; auto.
Defined.

Lemma get_materials_last_source_witness :
  exists materials params,
    get_materials Grid.looks_fs "looks.usda"
    = Returns (JDict [("materials", JList materials)]) /\
    material_entry Grid.steel_material
    = JDict [("path", JStr "/Looks/Steel");
             ("shader", JStr "/Looks/Steel/Shader");
             ("params", JDict params)] /\
    dict_get params "normal" = None /\
    dict_get params "roughness" = Some (JStr "0.3").
Proof.
  destruct (get_materials_last_source Grid.looks_fs "looks.usda"
              (Grid.stage_of [Grid.leaf "/Looks" "Scope" false false false [] []
                                [Grid.bare_material; Grid.steel_material]])
              Grid.steel_material []
              (mkShaderSource "/Looks/Steel/Shader"
                 [mkShaderInput "metallic" (Some "1.0");
                  mkShaderInput "normal" None;
                  mkShaderInput "roughness" (Some "0.3")]))
    as (materials & params & Hrun & _ & Hentry & Hparams).
  - reflexivity.
  - apply list_elem_of_In. vm_compute. auto.
  - reflexivity.
  - reflexivity.
  - exists materials, params. split; [exact Hrun|]. split; [exact Hentry|].
    split; [apply (Hparams "normal")|apply (Hparams "roughness")].
Defined.

Lemma get_prim_result_witness :
  exists payload attrs,
    get_prim Scenes.box_answers Grid.box_fs "box.usda" "/World/Box" = Returns payload /\
    field payload "attributes" = Some (JDict attrs) /\
    dict_get attrs "normals" = None /\
    dict_get attrs "doubleSided" = Some (JStr "False") /\
    field payload "material" = Some (JStr "/Looks/Steel").
Proof.
  destruct (get_prim_result Scenes.box_answers Grid.box_fs "box.usda" "/World/Box"
              (Grid.stage_of [Grid.world])) as [_ Hprim]; [reflexivity|].
  destruct (Hprim Grid.box eq_refl)
    as (payload & attrs & Hrun & _ & _ & _ & Hattrs & Hget & Hmat).
  exists payload, attrs. split; [exact Hrun|]. split; [exact Hattrs|].
  split; [apply (Hget "normals")|]. split; [apply (Hget "doubleSided")|exact Hmat].
Defined.
